(** * Blob gateway: addressing and metadata indirection

    A shallow embedding of the four blob handlers of the gateway

    - [BlobUploadEndpoint.handle]       (direct upload),
    - [registerBlobDownloadRoute]       (stream download),
    - [BlobGetEndpoint.handle]          (get-reference),
    - [BlobPresignUploadEndpoint.handle] (presigned upload),

    over an explicit model of the two object stores (R2, R2_PUBLIC) and of the
    key-value metadata store (KV).  Handlers are written in a small
    state-and-exception monad over the world the stores live in; every store
    and signer interaction is also appended to a ghost trace so that ordering
    properties can be stated. *)

From Stdlib Require Import ZArith QArith Ascii String DecimalString DecimalZ DecimalPos.
From Stdlib.Strings Require Import Byte.
From stdpp Require Import base option list gmap strings.

Local Open Scope Z_scope.

(* ===================================================================== *)
(** * JSON texts, as far as the key-value store needs them *)
(* ===================================================================== *)

(** The metadata store holds strings.  The handlers write
    [JSON.stringify(metadata)] and read it back with [JSON.parse].  Strings
    are sequences of 8-bit code units.  Numbers are mathematical integers
    printed in decimal (JavaScript agrees below 2^53).  [JSON.parse] is
    modelled on the compact fragment [JSON.stringify] emits for flat objects:
    no white space, members that are strings, integers, booleans or null, no
    repeated member name.  A text outside this fragment is reported as a
    syntax error, also where the platform's parser would accept it. *)

Module JSON.

Inductive value :=
| VNull
| VBool (b : bool)
| VNum (z : Z)
| VStr (s : string).

(** The members of an object, in textual order. *)
Definition object := list (string * value).

Definition dquote : ascii := "034"%char.
Definition backslash : ascii := "092"%char.

Definition hex_digit (n : N) : ascii :=
  match n with
  | 0 => "0" | 1 => "1" | 2 => "2" | 3 => "3" | 4 => "4" | 5 => "5"
  | 6 => "6" | 7 => "7" | 8 => "8" | 9 => "9" | 10 => "a" | 11 => "b"
  | 12 => "c" | 13 => "d" | 14 => "e" | _ => "f"
  end%N%char.

Definition hex_value (c : ascii) : option N :=
  let n := N_of_ascii c in
  if ((48 <=? n) && (n <=? 57))%N then Some (n - 48)%N
  else if ((97 <=? n) && (n <=? 102))%N then Some (n - 87)%N
  else if ((65 <=? n) && (n <=? 70))%N then Some (n - 55)%N
  else None.

(** QuoteJSONString, one code unit. *)
Definition escape_char (c : ascii) : string :=
  let n := N_of_ascii c in
  if Ascii.eqb c dquote then String backslash (String dquote EmptyString)
  else if Ascii.eqb c backslash then String backslash (String backslash EmptyString)
  else if (n <? 32)%N then
    match n with
    | 8 => String backslash "b"
    | 9 => String backslash "t"
    | 10 => String backslash "n"
    | 12 => String backslash "f"
    | 13 => String backslash "r"
    | _ => String backslash
             (String "u" (String "0" (String "0"
                (String (hex_digit (n / 16)) (String (hex_digit (n mod 16)) EmptyString)))))
    end%N
  else String c EmptyString.

Fixpoint escape (s : string) : string :=
  match s with
  | EmptyString => EmptyString
  | String c s' => escape_char c +:+ escape s'
  end.

Definition quote (s : string) : string :=
  String dquote (escape s +:+ String dquote EmptyString).

(** Number::toString on an integer. *)
Definition Number_toString (z : Z) : string :=
  NilZero.string_of_int (Z.to_int z).

Definition stringify_value (v : value) : string :=
  match v with
  | VNull => "null"
  | VBool true => "true"
  | VBool false => "false"
  | VNum z => Number_toString z
  | VStr s => quote s
  end.

Definition stringify_member (m : string * value) : string :=
  quote m.1 +:+ ":" +:+ stringify_value m.2.

Fixpoint stringify_members (l : object) : string :=
  match l with
  | [] => EmptyString
  | [m] => stringify_member m
  | m :: l' => stringify_member m +:+ "," +:+ stringify_members l'
  end.

(** [JSON.stringify] of an object whose members are all defined. *)
Definition stringify (o : object) : string :=
  "{" +:+ stringify_members o +:+ "}".

(** ** Parsing *)

Definition unescape_simple (e : ascii) : option ascii :=
  if Ascii.eqb e dquote then Some dquote
  else if Ascii.eqb e backslash then Some backslash
  else if Ascii.eqb e "/" then Some "/"%char
  else if Ascii.eqb e "b" then Some "008"%char
  else if Ascii.eqb e "f" then Some "012"%char
  else if Ascii.eqb e "n" then Some "010"%char
  else if Ascii.eqb e "r" then Some "013"%char
  else if Ascii.eqb e "t" then Some "009"%char
  else None.

Definition unescape_hex (h1 h2 h3 h4 : ascii) : option ascii :=
  a ← hex_value h1; b ← hex_value h2; c ← hex_value h3; d ← hex_value h4;
  let n := (4096 * a + 256 * b + 16 * c + d)%N in
  if (n <? 256)%N then Some (ascii_of_N n) else None.

(** The characters of a string literal after its opening quote, and what
    follows the closing quote. *)
Fixpoint parse_chars (s : string) : option (string * string) :=
  match s with
  | EmptyString => None
  | String c s' =>
    if Ascii.eqb c dquote then Some (EmptyString, s')
    else if Ascii.eqb c backslash then
      match s' with
      | String e s'' =>
        match unescape_simple e with
        | Some d => prod_map (String d) id <$> parse_chars s''
        | None =>
          if Ascii.eqb e "u" then
            match s'' with
            | String h1 (String h2 (String h3 (String h4 r))) =>
              d ← unescape_hex h1 h2 h3 h4;
              prod_map (String d) id <$> parse_chars r
            | _ => None
            end
          else None
        end
      | EmptyString => None
      end
    else if (N_of_ascii c <? 32)%N then None
    else prod_map (String c) id <$> parse_chars s'
  end.

Definition parse_string (s : string) : option (string * string) :=
  match s with
  | String c s' => if Ascii.eqb c dquote then parse_chars s' else None
  | EmptyString => None
  end.

Definition is_digit (c : ascii) : bool :=
  ((48 <=? N_of_ascii c) && (N_of_ascii c <=? 57))%N.

(** The longest run of digits at the head of [s], and the rest. *)
Fixpoint span_digits (s : string) : string * string :=
  match s with
  | String c s' =>
    if is_digit c then prod_map (String c) id (span_digits s') else (EmptyString, s)
  | EmptyString => (EmptyString, EmptyString)
  end.

(** An optional minus sign and the digits that follow it, and the rest. *)
Definition lex_number (s : string) : string * string :=
  match s with
  | String c s' =>
    if Ascii.eqb c "-" then prod_map (String c) id (span_digits s') else span_digits s
  | EmptyString => (EmptyString, EmptyString)
  end.

(** An integer literal in canonical form (no leading zero, no [-0]). *)
Definition parse_number (s : string) : option (Z * string) :=
  let '(tok, rest) := lex_number s in
  d ← NilZero.int_of_string tok;
  let z := Z.of_int d in
  if String.eqb (Number_toString z) tok then Some (z, rest) else None.

(** [s] without its prefix [lit]. *)
Fixpoint strip_prefix (lit s : string) : option string :=
  match lit with
  | EmptyString => Some s
  | String c lit' =>
    match s with
    | String c' s' => if Ascii.eqb c c' then strip_prefix lit' s' else None
    | EmptyString => None
    end
  end.

Definition parse_literal (lit : string) (v : value) (s : string) : option (value * string) :=
  pair v <$> strip_prefix lit s.

Definition parse_value (s : string) : option (value * string) :=
  match s with
  | String c _ =>
    if Ascii.eqb c dquote then prod_map VStr id <$> parse_string s
    else if Ascii.eqb c "t" then parse_literal "true" (VBool true) s
    else if Ascii.eqb c "f" then parse_literal "false" (VBool false) s
    else if Ascii.eqb c "n" then parse_literal "null" VNull s
    else prod_map VNum id <$> parse_number s
  | EmptyString => None
  end.

Definition parse_member (s : string) : option ((string * value) * string) :=
  '(k, s1) ← parse_string s;
  match s1 with
  | String c s2 =>
    if Ascii.eqb c ":" then '(v, s3) ← parse_value s2; Some ((k, v), s3) else None
  | EmptyString => None
  end.

(** Members up to and including the closing brace; nothing may follow. *)
Fixpoint parse_members (fuel : nat) (s : string) : option object :=
  match fuel with
  | O => None
  | S fuel' =>
    '(m, s1) ← parse_member s;
    match s1 with
    | String c s2 =>
      if Ascii.eqb c "}" then
        match s2 with EmptyString => Some [m] | _ => None end
      else if Ascii.eqb c "," then cons m <$> parse_members fuel' s2
      else None
    | EmptyString => None
    end
  end.

Fixpoint distinct (ks : list string) : bool :=
  match ks with
  | [] => true
  | k :: ks' => negb (existsb (String.eqb k) ks') && distinct ks'
  end.

Definition is_nil (s : string) : bool :=
  match s with EmptyString => true | _ => false end.

(** [JSON.parse]; [None] is the SyntaxError. *)
Definition parse (s : string) : option object :=
  match s with
  | String c s' =>
    if Ascii.eqb c "{" then
      o ← (match s' with
           | String c' s'' =>
             if Ascii.eqb c' "}" then (if is_nil s'' then Some [] else None)
             else parse_members (String.length s') s'
           | EmptyString => None
           end);
      if distinct o.*1 then Some o else None
    else None
  | EmptyString => None
  end.

(** Property access [o.k]; [None] is [undefined]. *)
Fixpoint get (k : string) (o : object) : option value :=
  match o with
  | [] => None
  | (k', v) :: o' => if String.eqb k k' then Some v else get k o'
  end.

(** ToBoolean. *)
Definition truthy (v : option value) : bool :=
  match v with
  | None | Some VNull => false
  | Some (VBool b) => b
  | Some (VNum z) => negb (z =? 0)
  | Some (VStr s) => negb (String.eqb s EmptyString)
  end.

(** [String(v)]. *)
Definition String_ (v : option value) : string :=
  match v with
  | None => "undefined"
  | Some VNull => "null"
  | Some (VBool true) => "true"
  | Some (VBool false) => "false"
  | Some (VNum z) => Number_toString z
  | Some (VStr s) => s
  end.

(** ** Vocabulary of the parsing lemmas *)

(** What may follow a number: not a digit. *)
Definition delimited (rest : string) : Prop :=
  match rest with
  | String c _ => is_digit c = false
  | EmptyString => True
  end.

(** A printed number starts with a digit or a minus sign. *)
Definition number_head (c : ascii) : bool :=
  is_digit c || Ascii.eqb c "-".

(** A value is followed by a comma or by the closing brace. *)
Definition closes (rest : string) : Prop :=
  exists c s, rest = String c s /\ (c = ","%char \/ c = "}"%char).

End JSON.

(* ===================================================================== *)
(** * Strings of the platform *)
(* ===================================================================== *)

Definition hex_upper (n : N) : ascii :=
  match n with
  | 0 => "0" | 1 => "1" | 2 => "2" | 3 => "3" | 4 => "4" | 5 => "5"
  | 6 => "6" | 7 => "7" | 8 => "8" | 9 => "9" | 10 => "A" | 11 => "B"
  | 12 => "C" | 13 => "D" | 14 => "E" | _ => "F"
  end%N%char.

Definition percent (n : N) : string :=
  String "%" (String (hex_upper (n / 16)) (String (hex_upper (n mod 16)) EmptyString)).

(** The characters [encodeURIComponent] leaves alone:
    letters, digits and [- _ . ! ~ * ' ( )]. *)
Definition uri_unreserved (c : ascii) : bool :=
  let n := N_of_ascii c in
  (((65 <=? n) && (n <=? 90)) || ((97 <=? n) && (n <=? 122)) || ((48 <=? n) && (n <=? 57))
   || (n =? 45) || (n =? 95) || (n =? 46) || (n =? 33) || (n =? 126)
   || (n =? 42) || (n =? 39) || (n =? 40) || (n =? 41))%N.

(** A code unit below 128 is one octet of UTF-8, one from 128 to 255 is two. *)
Definition encodeURIComponent_char (c : ascii) : string :=
  let n := N_of_ascii c in
  if uri_unreserved c then String c EmptyString
  else if (n <? 128)%N then percent n
  else percent (192 + n / 64) +:+ percent (128 + n mod 64).

Fixpoint encodeURIComponent (s : string) : string :=
  match s with
  | EmptyString => EmptyString
  | String c s' => encodeURIComponent_char c +:+ encodeURIComponent s'
  end.

(** Headers, route parameters and variables of the environment are
    [string | undefined]: an [option string]. *)

Definition is_empty (s : string) : bool :=
  match s with EmptyString => true | _ => false end.

(** [!x] on [string | undefined]. *)
Definition falsy (x : option string) : bool :=
  match x with
  | None => true
  | Some s => is_empty s
  end.

(** The string behind [string | undefined] once a guard has excluded
    [undefined]. *)
Definition narrowed (x : option string) : string := default EmptyString x.

(** [x === s] on [string | undefined]. *)
Definition strict_eq (x : option string) (s : string) : bool :=
  match x with
  | Some x => String.eqb x s
  | None => false
  end.

(** [x || d] on [string | undefined]. *)
Definition or_else (x : option string) (d : string) : string :=
  match x with
  | Some s => if is_empty s then d else s
  | None => d
  end.

(* ===================================================================== *)
(** * Data model *)
(* ===================================================================== *)

(** A parsed request body, as [c.req.json()] delivers it.  Numbers are
    exact rationals; these values are inspected by the request schema and
    never printed. *)
#[warnings="-register-all"]
Inductive json :=
| JNull
| JBool (b : bool)
| JNum (q : Q)
| JStr (s : string)
| JArr (items : list json)
| JObj (members : list (string * json)).

Fixpoint json_member (k : string) (members : list (string * json)) : option json :=
  match members with
  | [] => None
  | (k', v) :: rest => if String.eqb k k' then Some v else json_member k rest
  end.

Module BlobMetadata.

(** The sole persisted record. *)
Record t := mk {
  key : string;
  namespace : string;
  size : Z;
  contentType : string;
  uploadedAt : string;
  isPublic : bool
}.

(** The object literal [{ key, namespace, size, contentType, uploadedAt,
    isPublic }], members in the order the source writes them. *)
Definition to_object (m : t) : JSON.object :=
  [ ("key", JSON.VStr (key m));
    ("namespace", JSON.VStr (namespace m));
    ("size", JSON.VNum (size m));
    ("contentType", JSON.VStr (contentType m));
    ("uploadedAt", JSON.VStr (uploadedAt m));
    ("isPublic", JSON.VBool (isPublic m)) ].

End BlobMetadata.

(** [JSON.stringify(metadata)]. *)
Definition JSON_stringify (m : BlobMetadata.t) : string :=
  JSON.stringify (BlobMetadata.to_object m).

(** An object held by an R2 bucket. *)
Record R2Object := {
  body : list byte;
  httpMetadata_contentType : string
}.

(** The two bucket bindings of [c.env]. *)
Inductive Bucket := R2 | R2_PUBLIC.

Record S3Client := {
  region : string;
  endpoint : string;
  accessKeyId : string;
  secretAccessKey : string
}.

Record PutObjectCommand := {
  Bucket_ : string;
  Key : string;
  ContentType : string;
  ContentLength : Z
}.

(** Every interaction with a collaborator. *)
Inductive Op :=
| R2_put (b : Bucket) (k : string) (o : R2Object)
| R2_get (b : Bucket) (k : string)
| KV_put (k v : string)
| KV_get (k : string)
| Sign (client : S3Client) (command : PutObjectCommand) (expiresIn : Z).

Record Event := { op : Op; ok : bool }.

Definition succeeded (o : Op) : Event := {| op := o; ok := true |}.
Definition failed (o : Op) : Event := {| op := o; ok := false |}.

(** The world a request runs in: the contents of the stores behind the
    bindings of [c.env], the variables of [c.env], and three ghost fields.
    [trace] lists the interactions so far, oldest first.  [outage n] tells
    whether the interaction number [n] of the world's history fails;
    [clock n] is what the [n]-th reading of the clock returns. *)
Record World := {
  r2 : gmap string R2Object;
  r2_public : gmap string R2Object;
  kv : gmap string string;
  R2_ACCOUNT_ID : option string;
  R2_ACCESS_KEY_ID : option string;
  R2_SECRET_ACCESS_KEY : option string;
  trace : list Event;
  outage : nat -> bool;
  clock : nat -> Z;
  clock_reads : nat
}.

Definition objects (b : Bucket) (w : World) : gmap string R2Object :=
  match b with
  | R2 => r2 w
  | R2_PUBLIC => r2_public w
  end.

Definition set_objects (b : Bucket) (m : gmap string R2Object) (w : World) : World :=
  {| r2 := match b with R2 => m | R2_PUBLIC => r2 w end;
     r2_public := match b with R2 => r2_public w | R2_PUBLIC => m end;
     kv := kv w;
     R2_ACCOUNT_ID := R2_ACCOUNT_ID w;
     R2_ACCESS_KEY_ID := R2_ACCESS_KEY_ID w;
     R2_SECRET_ACCESS_KEY := R2_SECRET_ACCESS_KEY w;
     trace := trace w; outage := outage w;
     clock := clock w; clock_reads := clock_reads w |}.

Definition set_kv (m : gmap string string) (w : World) : World :=
  {| r2 := r2 w; r2_public := r2_public w;
     kv := m;
     R2_ACCOUNT_ID := R2_ACCOUNT_ID w;
     R2_ACCESS_KEY_ID := R2_ACCESS_KEY_ID w;
     R2_SECRET_ACCESS_KEY := R2_SECRET_ACCESS_KEY w;
     trace := trace w; outage := outage w;
     clock := clock w; clock_reads := clock_reads w |}.

Definition log (e : Event) (w : World) : World :=
  {| r2 := r2 w; r2_public := r2_public w;
     kv := kv w;
     R2_ACCOUNT_ID := R2_ACCOUNT_ID w;
     R2_ACCESS_KEY_ID := R2_ACCESS_KEY_ID w;
     R2_SECRET_ACCESS_KEY := R2_SECRET_ACCESS_KEY w;
     trace := trace w ++ [e]; outage := outage w;
     clock := clock w; clock_reads := clock_reads w |}.

Definition tick (w : World) : World :=
  {| r2 := r2 w; r2_public := r2_public w;
     kv := kv w;
     R2_ACCOUNT_ID := R2_ACCOUNT_ID w;
     R2_ACCESS_KEY_ID := R2_ACCESS_KEY_ID w;
     R2_SECRET_ACCESS_KEY := R2_SECRET_ACCESS_KEY w;
     trace := trace w; outage := outage w;
     clock := clock w; clock_reads := S (clock_reads w) |}.

(* ===================================================================== *)
(** * The monad of a handler *)
(* ===================================================================== *)

Inductive Exn :=
| IOError (o : Op)        (* a store or the signer rejected the call *)
| SyntaxError             (* JSON.parse, c.req.json() *)
| ValidationError.        (* getValidatedData *)

Inductive Result (A : Type) :=
| Ret (a : A)
| Throw (e : Exn).
Arguments Ret {A} a.
Arguments Throw {A} e.

Definition M (A : Type) : Type := World -> Result A * World.

Definition ret {A} (a : A) : M A := fun w => (Ret a, w).

Definition throw {A} (e : Exn) : M A := fun w => (Throw e, w).

Definition bind {A B} (m : M A) (f : A -> M B) : M B :=
  fun w =>
    match m w with
    | (Ret a, w') => f a w'
    | (Throw e, w') => (Throw e, w')
    end.

Declare Scope handler_scope.
Delimit Scope handler_scope with handler.
Notation "'await' x <- m ; f" := (bind m (fun x => f))
  (at level 10, x name, m at level 100, f at level 200) : handler_scope.

(** One interaction: it fails when the outage oracle says so at this point
    of the history, and then changes nothing; it is logged either way. *)
Definition io {A} (o : Op) (run : World -> A * World) : M A :=
  fun w =>
    if outage w (length (trace w))
    then (Throw (IOError o), log (failed o) w)
    else let '(a, w') := run w in (Ret a, log (succeeded o) w').

Definition bucket_put (b : Bucket) (k : string) (o : R2Object) : M unit :=
  io (R2_put b k o) (fun w => (tt, set_objects b (<[k := o]> (objects b w)) w)).

Definition bucket_get (b : Bucket) (k : string) : M (option R2Object) :=
  io (R2_get b k) (fun w => (objects b w !! k, w)).

Definition KV_PUT (k v : string) : M unit :=
  io (KV_put k v) (fun w => (tt, set_kv (<[k := v]> (kv w)) w)).

Definition KV_GET (k : string) : M (option string) :=
  io (KV_get k) (fun w => (kv w !! k, w)).

(** A variable of [c.env]. *)
Definition env {A} (var : World -> A) : M A :=
  fun w => (Ret (var w), w).

(** [Date.now()]. *)
Definition Date_now : M Z :=
  fun w => (Ret (clock w (clock_reads w)), tick w).

(** [JSON.parse(s)]. *)
Definition JSON_parse (s : string) : M JSON.object :=
  match JSON.parse s with
  | Some o => ret o
  | None => throw SyntaxError
  end.

(* ===================================================================== *)
(** * Responses *)
(* ===================================================================== *)

Inductive JsonBody :=
| ErrorBody (code : Z) (message : string)             (* { code, message } *)
| UploadBody (metadata : BlobMetadata.t)              (* { metadata } *)
| PresignBody (uploadUrl expiresAt : string)          (* { uploadUrl, expiresAt } *)
| GetBody (url : string) (metadata : JSON.object).    (* { url, metadata } *)

Inductive Response :=
| c_json (b : JsonBody) (status : Z)
| stream (payload : list byte) (status : Z) (headers : list (string * string)).

(* ===================================================================== *)
(** * Blob Key Codec *)
(* ===================================================================== *)

(** [`${namespace}:${key}`] *)
Definition r2Key (namespace key : string) : string :=
  namespace +:+ ":" +:+ key.

(** [`__BLOB:${namespace}:${key}`] *)
Definition kvKey (namespace key : string) : string :=
  "__BLOB:" +:+ namespace +:+ ":" +:+ key.

(** [isPublic ? c.env.R2_PUBLIC : c.env.R2] *)
Definition select_bucket (isPublic : bool) : Bucket :=
  if isPublic then R2_PUBLIC else R2.

(* ===================================================================== *)
(** * Requests *)
(* ===================================================================== *)

(** What the direct upload reads of its request. *)
Record UploadRequest := {
  x_blob_namespace : option string;
  x_blob_key : option string;
  x_blob_public : option string;
  content_type : option string;
  arrayBuffer : list byte
}.

(** A request with a JSON body; [None] is a body that is not JSON. *)
Record JsonRequest := {
  url : string;
  req_json : option json
}.

(** The parts of the platform and of [../../types] the handlers call and
    this development does not define.  [NamespaceValue] and [BlobGetRequest]
    are request schemas declared in [../../types]: the first is applied to
    the [namespace] member of a body ([None] when the member is absent) and
    yields the validated namespace, the second to a whole body and yields
    its [namespace] and [key]. *)
Record Platform := {
  NamespaceValue : option json -> option string;
  BlobGetRequest : json -> option (string * string);
  getSignedUrl : S3Client -> PutObjectCommand -> Z -> string;
  toISOString : Z -> string;
  URL_origin : string -> string
}.

(** ** The request schema of the presigned upload *)

Module PresignUploadRequest.

Record data := mk {
  namespace : string;
  key : string;
  contentType : string;
  size : Z;
  isPublic : bool
}.

(** [z.string()] *)
Definition z_string (v : option json) : option string :=
  match v with
  | Some (JStr s) => Some s
  | _ => None
  end.

Definition Number_isInteger (q : Q) : bool :=
  Qnum q mod Z.pos (Qden q) =? 0.

(** [z.number().int().positive()] *)
Definition z_number_int_positive (v : option json) : option Z :=
  match v with
  | Some (JNum q) =>
    if Number_isInteger q && (0 <? Qnum q) then Some (Qnum q / Z.pos (Qden q)) else None
  | _ => None
  end.

(** [z.boolean().default(d)] *)
Definition z_boolean_default (d : bool) (v : option json) : option bool :=
  match v with
  | None => Some d
  | Some (JBool b) => Some b
  | _ => None
  end.

(** [PresignUploadRequest.safeParse(body)]; [None] is [success: false]. *)
Definition safeParse (P : Platform) (body : json) : option data :=
  match body with
  | JObj members =>
    namespace ← NamespaceValue P (json_member "namespace" members);
    key ← z_string (json_member "key" members);
    contentType ← z_string (json_member "contentType" members);
    size ← z_number_int_positive (json_member "size" members);
    isPublic ← z_boolean_default false (json_member "isPublic" members);
    Some (mk namespace key contentType size isPublic)
  | _ => None
  end.

End PresignUploadRequest.

(* ===================================================================== *)
(** * The handlers *)
(* ===================================================================== *)

Section Handlers.

Context (P : Platform).

Local Open Scope handler_scope.

(** [await getSignedUrl(s3Client, command, { expiresIn })] *)
Definition Signer_getSignedUrl (client : S3Client) (command : PutObjectCommand)
    (expiresIn : Z) : M string :=
  io (Sign client command expiresIn)
     (fun w => (getSignedUrl P client command expiresIn, w)).

(** [new Date().toISOString()] *)
Definition Date_toISOString : M string :=
  await t <- Date_now;
  ret (toISOString P t).

(** ** Direct upload: [BlobUploadEndpoint.handle] *)
Definition BlobUploadEndpoint_handle (req : UploadRequest) : M Response :=
  let namespace := x_blob_namespace req in
  let key := x_blob_key req in
  let isPublic := strict_eq (x_blob_public req) "true" in
  let contentType := or_else (content_type req) "application/octet-stream" in
  if falsy namespace || falsy key then
    ret (c_json (ErrorBody 400 "Missing x-blob-namespace or x-blob-key header") 400)
  else
    let namespace := narrowed namespace in
    let key := narrowed key in
    let body := arrayBuffer req in
    let size := Z.of_nat (length body) in
    if size =? 0 then
      ret (c_json (ErrorBody 400 "Empty file") 400)
    else
      let bucket := select_bucket isPublic in
      let r2Key := r2Key namespace key in
      await _ <- bucket_put bucket r2Key
                   {| body := body; httpMetadata_contentType := contentType |};
      await now <- Date_toISOString;
      let metadata := BlobMetadata.mk key namespace size contentType now isPublic in
      let kvKey := kvKey namespace key in
      await _ <- KV_PUT kvKey (JSON_stringify metadata);
      ret (c_json (UploadBody metadata) 200).

(** ** Stream download: the handler [registerBlobDownloadRoute] registers
    for [/blob/download/:namespace/:key], on the two route parameters.
    Setting a header is total here; on the platform it throws for a value
    that is not a legal header value. *)
Definition registerBlobDownloadRoute (namespace key : option string) : M Response :=
  if falsy namespace || falsy key then
    ret (c_json (ErrorBody 400 "Missing namespace or key") 400)
  else
    let namespace := narrowed namespace in
    let key := narrowed key in
    let kvKey := kvKey namespace key in
    await metadataStr <- KV_GET kvKey;
    if falsy metadataStr then
      ret (c_json (ErrorBody 404 "Blob not found") 404)
    else
      await metadata <- JSON_parse (narrowed metadataStr);
      let r2Key := r2Key namespace key in
      let bucket := select_bucket (JSON.truthy (JSON.get "isPublic" metadata)) in
      await object <- bucket_get bucket r2Key;
      match object with
      | None => ret (c_json (ErrorBody 404 "Blob not found in storage") 404)
      | Some object =>
        let contentType := JSON.get "contentType" metadata in
        let headers :=
          [ ("Content-Type",
             if JSON.truthy contentType then JSON.String_ contentType
             else "application/octet-stream");
            ("Content-Length", JSON.String_ (JSON.get "size" metadata));
            ("Content-Disposition",
             "attachment; filename=" +:+ String JSON.dquote (encodeURIComponent key)
               +:+ String JSON.dquote EmptyString) ] in
        ret (stream (body object) 200 headers)
      end.

(** ** Get-reference: [BlobGetEndpoint.handle] *)

(** [this.getValidatedData()], the body against [BlobGetRequest]. *)
Definition getValidatedData (req : JsonRequest) : M (string * string) :=
  match req_json req with
  | Some body =>
    match BlobGetRequest P body with
    | Some data => ret data
    | None => throw ValidationError
    end
  | None => throw ValidationError
  end.

Definition BlobGetEndpoint_handle (req : JsonRequest) : M Response :=
  await data <- getValidatedData req;
  let '(namespace, key) := data in
  let kvKey := kvKey namespace key in
  await metadataStr <- KV_GET kvKey;
  if falsy metadataStr then
    ret (c_json (ErrorBody 404 "Blob not found") 404)
  else
    await metadata <- JSON_parse (narrowed metadataStr);
    let gatewayOrigin := URL_origin P (url req) in
    let url := gatewayOrigin +:+ "/blob/download/" +:+ encodeURIComponent namespace
                 +:+ "/" +:+ encodeURIComponent key in
    ret (c_json (GetBody url metadata) 200).

(** ** Presigned upload: [BlobPresignUploadEndpoint.handle] *)

(** [await c.req.json()] *)
Definition req_json_ (req : JsonRequest) : M json :=
  match req_json req with
  | Some body => ret body
  | None => throw SyntaxError
  end.

Definition BlobPresignUploadEndpoint_handle (req : JsonRequest) : M Response :=
  await R2_ACCOUNT_ID <- env R2_ACCOUNT_ID;
  await R2_ACCESS_KEY_ID <- env R2_ACCESS_KEY_ID;
  await R2_SECRET_ACCESS_KEY <- env R2_SECRET_ACCESS_KEY;
  if falsy R2_ACCOUNT_ID || falsy R2_ACCESS_KEY_ID || falsy R2_SECRET_ACCESS_KEY then
    ret (c_json (ErrorBody 503 "R2 credentials not configured for presigned URLs") 503)
  else
    await body <- req_json_ req;
    match PresignUploadRequest.safeParse P body with
    | None => ret (c_json (ErrorBody 400 "Invalid request body") 400)
    | Some parsed =>
      let namespace := PresignUploadRequest.namespace parsed in
      let key := PresignUploadRequest.key parsed in
      let contentType := PresignUploadRequest.contentType parsed in
      let size := PresignUploadRequest.size parsed in
      let isPublic := PresignUploadRequest.isPublic parsed in
      let bucketName :=
        if isPublic then "federise-objects-public" else "federise-objects" in
      let r2Key := r2Key namespace key in
      let s3Client :=
        {| region := "auto";
           endpoint := "https://" +:+ narrowed R2_ACCOUNT_ID +:+ ".r2.cloudflarestorage.com";
           accessKeyId := narrowed R2_ACCESS_KEY_ID;
           secretAccessKey := narrowed R2_SECRET_ACCESS_KEY |} in
      let expiresIn := 3600 in
      let command :=
        {| Bucket_ := bucketName; Key := r2Key;
           ContentType := contentType; ContentLength := size |} in
      await uploadUrl <- Signer_getSignedUrl s3Client command expiresIn;
      await t <- Date_now;
      let expiresAt := toISOString P (t + expiresIn * 1000) in
      await now <- Date_toISOString;
      let metadata := BlobMetadata.mk key namespace size contentType now isPublic in
      let kvKey := kvKey namespace key in
      await _ <- KV_PUT kvKey (JSON_stringify metadata);
      ret (c_json (PresignBody uploadUrl expiresAt) 200)
    end.

End Handlers.

(* ===================================================================== *)
(** * Vocabulary of the statements *)
(* ===================================================================== *)

(** The next [n] interactions of the world succeed. *)
Definition calm (w : World) (n : nat) : Prop :=
  forall i, (i < n)%nat -> outage w (length (trace w) + i) = false.

(** The three signing variables of [c.env] are set and not empty. *)
Definition signing_configured (w : World) : bool :=
  negb (falsy (R2_ACCOUNT_ID w) || falsy (R2_ACCESS_KEY_ID w)
        || falsy (R2_SECRET_ACCESS_KEY w)).

(** The interaction [e] is addressed by the keys derived from
    [(namespace, key)]: the storage key on a bucket or in a signed command,
    the metadata key on the key-value store. *)
Definition addresses (namespace key : string) (e : Event) : Prop :=
  match op e with
  | R2_put _ k _ | R2_get _ k => k = r2Key namespace key
  | KV_put k _ | KV_get k => k = kvKey namespace key
  | Sign _ command _ => Key command = r2Key namespace key
  end.

(** The bucket the flag does not select. *)
Definition other_bucket (isPublic : bool) : Bucket :=
  select_bucket (negb isPublic).

(** The [Content-Disposition] header of a download of [key]. *)
Definition attachment (key : string) : string :=
  "attachment; filename=" +:+ String JSON.dquote (encodeURIComponent key)
    +:+ String JSON.dquote EmptyString.

(** The answers the download route gives when it finds no metadata, and
    when it finds metadata but no object. *)
Definition BlobNotFound : Response := c_json (ErrorBody 404 "Blob not found") 404.
Definition ObjectNotFound : Response :=
  c_json (ErrorBody 404 "Blob not found in storage") 404.

(** ** Vocabulary of the further properties *)

(** The three stores hold the same in [w'] as in [w]. *)
Definition same_stores (w w' : World) : Prop :=
  r2 w' = r2 w /\ r2_public w' = r2_public w /\ kv w' = kv w.

(** The interaction reads a store. *)
Definition is_read (e : Event) : bool :=
  match op e with
  | R2_get _ _ | KV_get _ => true
  | R2_put _ _ _ | KV_put _ _ | Sign _ _ _ => false
  end.

(** The interaction is a read of the metadata store. *)
Definition is_KV_get (e : Event) : bool :=
  match op e with
  | KV_get _ => true
  | _ => false
  end.

(** Every record of the metadata store is a text [JSON.parse] accepts. *)
Definition parsable (w : World) : Prop :=
  forall k text, kv w !! k = Some text -> is_Some (JSON.parse text).

(** Every record the download route can read for a pair has an object
    behind it, in the bucket the record selects. *)
Definition backed (w : World) : Prop :=
  forall namespace key text metadata,
    kv w !! kvKey namespace key = Some text ->
    JSON.parse text = Some metadata ->
    is_Some (objects (select_bucket (JSON.truthy (JSON.get "isPublic" metadata))) w
               !! r2Key namespace key).

(** The character [sep] does not occur in [s]. *)
Fixpoint free_of (sep : ascii) (s : string) : bool :=
  match s with
  | EmptyString => true
  | String c s' => negb (Ascii.eqb c sep) && free_of sep s'
  end.

(** What [encodeURIComponent] emits: an unreserved character or a percent
    sign. *)
Definition uri_safe (c : ascii) : bool :=
  uri_unreserved c || Ascii.eqb c "%".

Fixpoint all_chars (p : ascii -> bool) (s : string) : bool :=
  match s with
  | EmptyString => true
  | String c s' => p c && all_chars p s'
  end.

(** An inverse of [encodeURIComponent] on what it emits, used to show that
    it loses nothing: a percent sign and two hexadecimal digits are one
    octet, and the two octets of a code unit from 128 to 255 are put back
    together. *)
Definition octet (h1 h2 : ascii) : option N :=
  a ← JSON.hex_value h1; b ← JSON.hex_value h2; Some (16 * a + b)%N.

Fixpoint uri_decode (s : string) : option string :=
  match s with
  | EmptyString => Some EmptyString
  | String c s' =>
    if Ascii.eqb c "%" then
      match s' with
      | String h1 (String h2 r) =>
        n ← octet h1 h2;
        if (n <? 128)%N then String (ascii_of_N n) <$> uri_decode r
        else
          match r with
          | String c' (String h3 (String h4 r')) =>
            if Ascii.eqb c' "%" then
              m ← octet h3 h4;
              String (ascii_of_N (64 * (n - 192) + (m - 128))) <$> uri_decode r'
            else None
          | _ => None
          end
      | _ => None
      end
    else String c <$> uri_decode s'
  end.

(** The headers of a download that reads the record [m]. *)
Definition download_headers (m : BlobMetadata.t) (key : string) : list (string * string) :=
  [ ("Content-Type",
     if is_empty (BlobMetadata.contentType m) then "application/octet-stream"
     else BlobMetadata.contentType m);
    ("Content-Length", JSON.Number_toString (BlobMetadata.size m));
    ("Content-Disposition", attachment key) ].

(** A value that [headers.set] keeps as it is.  On the platform the call
    throws a TypeError for a value that holds a NUL, a line feed or a
    carriage return, and strips spaces and tabs at either end; the header
    list of the download is the platform's for values of this kind. *)
Definition header_char (c : ascii) : bool :=
  negb (Ascii.eqb c "000") && negb (Ascii.eqb c "010") && negb (Ascii.eqb c "013").

Definition blank (c : ascii) : bool :=
  Ascii.eqb c " " || Ascii.eqb c "009".

Definition starts_blank (s : string) : bool :=
  match s with
  | String c _ => blank c
  | EmptyString => false
  end.

Fixpoint ends_blank (s : string) : bool :=
  match s with
  | EmptyString => false
  | String c EmptyString => blank c
  | String _ s' => ends_blank s'
  end.

Definition header_value (s : string) : bool :=
  all_chars header_char s && negb (starts_blank s) && negb (ends_blank s).

(** [Number.isSafeInteger]: the integers a number of the platform holds
    exactly; [String] prints each of them in full decimal, as
    [JSON.Number_toString] does. *)
Definition Number_MAX_SAFE_INTEGER : Z := 9007199254740991.

Definition Number_isSafeInteger (z : Z) : bool :=
  Z.abs z <=? Number_MAX_SAFE_INTEGER.

(** A request to one of the four routes of the gateway. *)
Inductive Request :=
| DirectUpload (req : UploadRequest)
| PresignedUpload (req : JsonRequest)
| GetReference (req : JsonRequest)
| StreamDownload (namespace key : option string).

Definition is_presigned (r : Request) : bool :=
  match r with
  | PresignedUpload _ => true
  | _ => false
  end.

(** The world after the request [r] was served, whatever the answer. *)
Definition served (P : Platform) (r : Request) (w : World) : World :=
  match r with
  | DirectUpload req => (BlobUploadEndpoint_handle P req w).2
  | PresignedUpload req => (BlobPresignUploadEndpoint_handle P req w).2
  | GetReference req => (BlobGetEndpoint_handle P req w).2
  | StreamDownload namespace key => (registerBlobDownloadRoute namespace key w).2
  end.

(** The world after the requests of [history] were served one by one. *)
Definition served_all (P : Platform) (history : list Request) (w : World) : World :=
  fold_left (fun w r => served P r w) history w.

(* ===================================================================== *)
(** * A concrete platform and concrete worlds, for worked examples *)
(* ===================================================================== *)

Module Example.

(** Stand-ins for what the platform supplies: the namespace schema is a
    bare string schema, the get-reference schema asks for two strings, the
    signer appends bucket, key and validity to the endpoint, an instant is
    rendered as its number of milliseconds, and requests are addressed at
    their bare origin. *)
Definition platform : Platform := {|
  NamespaceValue := PresignUploadRequest.z_string;
  BlobGetRequest := fun body =>
    match body with
    | JObj members =>
      namespace ← PresignUploadRequest.z_string (json_member "namespace" members);
      key ← PresignUploadRequest.z_string (json_member "key" members);
      Some (namespace, key)
    | _ => None
    end;
  getSignedUrl := fun client command expiresIn =>
    endpoint client +:+ "/" +:+ Bucket_ command +:+ "/" +:+ Key command
      +:+ "?X-Amz-Expires=" +:+ JSON.Number_toString expiresIn;
  toISOString := JSON.Number_toString;
  URL_origin := fun u => u
|}.

(** Empty stores, credentials configured, no outage. *)
Definition w0 : World := {|
  r2 := ∅; r2_public := ∅; kv := ∅;
  R2_ACCOUNT_ID := Some "acct";
  R2_ACCESS_KEY_ID := Some "AKIA";
  R2_SECRET_ACCESS_KEY := Some "secret";
  trace := []; outage := fun _ => false;
  clock := fun n => 1700000000000 + Z.of_nat n; clock_reads := 0
|}.

(** The same, without signing credentials. *)
Definition w_unsigned : World := {|
  r2 := ∅; r2_public := ∅; kv := ∅;
  R2_ACCOUNT_ID := None;
  R2_ACCESS_KEY_ID := None;
  R2_SECRET_ACCESS_KEY := None;
  trace := []; outage := fun _ => false;
  clock := fun n => 1700000000000 + Z.of_nat n; clock_reads := 0
|}.

(** The same as [w0], with every interaction failing. *)
Definition w_down : World := {|
  r2 := ∅; r2_public := ∅; kv := ∅;
  R2_ACCOUNT_ID := Some "acct";
  R2_ACCESS_KEY_ID := Some "AKIA";
  R2_SECRET_ACCESS_KEY := Some "secret";
  trace := []; outage := fun _ => true;
  clock := fun n => 1700000000000 + Z.of_nat n; clock_reads := 0
|}.

Definition hello : list byte := [x68; x65; x6c; x6c; x6f].

Definition upload (namespace key : string) (public : option string)
    (payload : list byte) : UploadRequest := {|
  x_blob_namespace := Some namespace;
  x_blob_key := Some key;
  x_blob_public := public;
  content_type := Some "text/plain";
  arrayBuffer := payload
|}.

Definition presign_body (namespace key : string) (size : Q) (public : bool) : json :=
  JObj [ ("namespace", JStr namespace); ("key", JStr key);
         ("contentType", JStr "text/plain"); ("size", JNum size);
         ("isPublic", JBool public) ].

(** The upload of the scenario of the specification. *)
Definition docs_readme : UploadRequest := upload "docs" "readme.txt" None hello.

Definition post (body : json) : JsonRequest :=
  {| url := "https://gateway.example"; req_json := Some body |}.

Definition get_body (namespace key : string) : json :=
  JObj [ ("namespace", JStr namespace); ("key", JStr key) ].

(** The world after the request [h], whatever it answered. *)
Definition after (h : M Response) (w : World) : World := (h w).2.

(** The same as [w0], with the second interaction failing. *)
Definition w_second_fails : World := {|
  r2 := ∅; r2_public := ∅; kv := ∅;
  R2_ACCOUNT_ID := Some "acct";
  R2_ACCESS_KEY_ID := Some "AKIA";
  R2_SECRET_ACCESS_KEY := Some "secret";
  trace := []; outage := fun n => Nat.eqb n 1;
  clock := fun n => 1700000000000 + Z.of_nat n; clock_reads := 0
|}.

End Example.

(* ===================================================================== *)
(** * Proof automation *)
(* ===================================================================== *)

Create HintDb handler.
#[local] Hint Unfold bind ret throw env io bucket_put bucket_get KV_PUT KV_GET
  Date_now Date_toISOString Signer_getSignedUrl JSON_parse req_json_
  getValidatedData : handler.

(** Case analysis on every guard of a run lemma [H]. *)
Ltac guards H :=
  cbv zeta in H;
  repeat match type of H with
         | if ?b then _ else _ => destruct b eqn:?
         | match ?x with _ => _ end => destruct x eqn:?
         end.

(** The interactions a run added to the trace: none, one or two. *)
Ltac new_interactions :=
  first [ exists []; split; [by rewrite app_nil_r | by repeat constructor]
        | eexists [_]; split; [done | by repeat constructor]
        | eexists [_; _]; split; [by rewrite <- app_assoc | by repeat constructor] ].

(* ===================================================================== *)
(** * JSON: parsing undoes printing *)
(* ===================================================================== *)

Module JSON_facts.
Import JSON.

#[local] Arguments String.append !_ _ : simpl nomatch.

Lemma string_app_assoc (a b c : string) : (a +:+ b) +:+ c = a +:+ (b +:+ c).
Proof. induction a as [|x a IH]; simpl; [done | by rewrite IH]. Qed.

Lemma string_app_length (a b : string) :
  String.length (a +:+ b) = (String.length a + String.length b)%nat.
Proof. induction a as [|x a IH]; simpl; [done | by rewrite IH]. Qed.

Lemma parse_chars_escape_char c t :
  parse_chars (escape_char c +:+ t) = prod_map (String c) id <$> parse_chars t.
Proof.
  destruct c as [[] [] [] [] [] [] [] []]; reflexivity.
Qed.

Lemma parse_chars_escape s rest :
  parse_chars (escape s +:+ String dquote rest) = Some (s, rest).
Proof.
  induction s as [|c s IH]; [done |].
  cbn [escape]. by rewrite string_app_assoc, parse_chars_escape_char, IH.
Qed.

Lemma parse_string_quote s rest :
  parse_string (quote s +:+ rest) = Some (s, rest).
Proof.
  unfold quote. simpl. rewrite string_app_assoc. simpl.
  apply parse_chars_escape.
Qed.

Lemma span_digits_uint d rest :
  delimited rest ->
  span_digits (NilEmpty.string_of_uint d +:+ rest) = (NilEmpty.string_of_uint d, rest).
Proof.
  intros Hrest. induction d; simpl; rewrite ?IHd; try done.
  destruct rest as [|c rest]; simpl in *; [done | by rewrite Hrest].
Qed.

Lemma Number_toString_pos p :
  Number_toString (Z.pos p) = NilEmpty.string_of_uint (Pos.to_uint p).
Proof.
  unfold Number_toString. simpl.
  pose proof (Unsigned.to_uint_nonnil p) as Hn.
  by destruct (Pos.to_uint p).
Qed.

Lemma Number_toString_neg p :
  Number_toString (Z.neg p) = String "-" (NilEmpty.string_of_uint (Pos.to_uint p)).
Proof.
  unfold Number_toString. simpl.
  pose proof (Unsigned.to_uint_nonnil p) as Hn.
  by destruct (Pos.to_uint p).
Qed.

Lemma int_of_string_Number_toString z :
  NilZero.int_of_string (Number_toString z) = Some (Z.to_int z).
Proof.
  unfold Number_toString. apply NilZero.isi.
  - destruct z as [|p|p]; simpl; try discriminate.
    intros [= H]. by apply (Unsigned.to_uint_nonnil p).
  - destruct z as [|p|p]; simpl; try discriminate.
    intros [= H]. by apply (Unsigned.to_uint_nonnil p).
Qed.

Lemma uint_head d :
  d <> Decimal.Nil ->
  exists c s, NilEmpty.string_of_uint d = String c s /\ is_digit c = true.
Proof. destruct d; intros Hd; try done; simpl; eauto. Qed.

Lemma Number_toString_head z :
  exists c s, Number_toString z = String c s /\ number_head c = true.
Proof.
  destruct z as [|p|p].
  - by exists "0"%char, EmptyString.
  - rewrite Number_toString_pos.
    destruct (uint_head _ (Unsigned.to_uint_nonnil p)) as (c & s & -> & Hc).
    exists c, s. split; [done |]. unfold number_head. by rewrite Hc.
  - rewrite Number_toString_neg. by eexists _, _.
Qed.

Lemma span_digits_Number_toString z rest :
  delimited rest ->
  lex_number (Number_toString z +:+ rest) = (Number_toString z, rest).
Proof.
  intros Hrest. unfold lex_number. destruct z as [|p|p].
  - simpl. destruct rest as [|c rest]; simpl in *; [done | by rewrite Hrest].
  - rewrite Number_toString_pos.
    destruct (uint_head _ (Unsigned.to_uint_nonnil p)) as (c & s & Hs & Hc).
    pose proof (span_digits_uint (Pos.to_uint p) rest Hrest) as Hspan.
    rewrite Hs in *. simpl in *.
    destruct (Ascii.eqb_spec c "-") as [-> | _]; [done | exact Hspan].
  - rewrite Number_toString_neg. simpl.
    by rewrite span_digits_uint.
Qed.

Lemma parse_number_toString z rest :
  delimited rest ->
  parse_number (Number_toString z +:+ rest) = Some (z, rest).
Proof.
  intros Hrest. unfold parse_number.
  rewrite (span_digits_Number_toString z rest Hrest).
  rewrite int_of_string_Number_toString. simpl.
  rewrite DecimalZ.of_to, String.eqb_refl. done.
Qed.

Lemma number_head_dispatch c :
  number_head c = true ->
  Ascii.eqb c dquote = false /\ Ascii.eqb c "t" = false /\
  Ascii.eqb c "f" = false /\ Ascii.eqb c "n" = false.
Proof. destruct c as [[] [] [] [] [] [] [] []]; by intros. Qed.

Lemma closes_delimited rest : closes rest -> delimited rest.
Proof. by intros (c & s & -> & [-> | ->]). Qed.

Lemma parse_value_stringify v rest :
  closes rest ->
  parse_value (stringify_value v +:+ rest) = Some (v, rest).
Proof.
  intros Hrest. destruct v as [|[]|z|s]; try done.
  - destruct (Number_toString_head z) as (c & s & Hs & Hc).
    pose proof (parse_number_toString z rest (closes_delimited _ Hrest)) as Hp.
    unfold stringify_value. rewrite Hs in *.
    change (String c s +:+ rest) with (String c (s +:+ rest)) in *.
    unfold parse_value. cbv beta iota.
    destruct (number_head_dispatch c Hc) as (-> & -> & -> & ->).
    by rewrite Hp.
  - unfold stringify_value, parse_value.
    rewrite parse_string_quote. done.
Qed.

Lemma parse_member_stringify m rest :
  closes rest ->
  parse_member (stringify_member m +:+ rest) = Some (m, rest).
Proof.
  intros Hrest. destruct m as [k v]. unfold parse_member, stringify_member.
  cbn [fst snd]. rewrite !string_app_assoc, parse_string_quote. simpl.
  by rewrite parse_value_stringify.
Qed.

Lemma parse_members_stringify fuel o :
  o <> [] -> (length o <= fuel)%nat ->
  parse_members fuel (stringify_members o +:+ "}") = Some o.
Proof.
  revert fuel. induction o as [|m o IH]; intros fuel Hne Hfuel; [done |].
  destruct fuel as [|fuel]; simpl in Hfuel; [lia |].
  destruct o as [|m' o].
  - cbn [stringify_members parse_members].
    rewrite parse_member_stringify; [done | by eexists _, _; eauto].
  - change (stringify_members (m :: m' :: o))
      with (stringify_member m +:+ "," +:+ stringify_members (m' :: o)).
    cbn [parse_members]. rewrite !string_app_assoc.
    rewrite parse_member_stringify; [| by eexists _, _; eauto].
    simpl. rewrite IH; [done | done | lia].
Qed.

Lemma stringify_members_length o :
  (length o <= String.length (stringify_members o))%nat.
Proof.
  induction o as [|m o IH]; [done |].
  destruct o as [|m' o].
  - destruct m as [k v]. unfold stringify_members, stringify_member, quote. simpl. lia.
  - change (stringify_members (m :: m' :: o))
      with (stringify_member m +:+ "," +:+ stringify_members (m' :: o)).
    rewrite !string_app_length. simpl in *. lia.
Qed.

(** [JSON.parse] undoes [JSON.stringify] on every object whose member
    names are pairwise different. *)
Lemma parse_stringify o :
  distinct o.*1 = true -> parse (stringify o) = Some o.
Proof.
  intros Hd. destruct o as [|m o]; [done |].
  assert (exists s, stringify_members (m :: o) +:+ "}" = String dquote s) as [s Hs].
  { destruct m as [k v], o; simpl; unfold stringify_member, quote; simpl; eauto. }
  transitivity
    (o' ← parse_members (String.length (stringify_members (m :: o) +:+ "}"))
                        (stringify_members (m :: o) +:+ "}");
     if distinct o'.*1 then Some o' else None).
  { unfold stringify. rewrite Hs. reflexivity. }
  rewrite parse_members_stringify.
  - simpl in *. by rewrite Hd.
  - done.
  - pose proof (stringify_members_length (m :: o)) as Hl.
    rewrite string_app_length. simpl in *. lia.
Qed.

End JSON_facts.

(* ===================================================================== *)
(** * Runs of the handlers *)
(* ===================================================================== *)

Lemma is_empty_false s : s <> EmptyString -> is_empty s = false.
Proof. by destruct s. Qed.

Lemma falsy_Some s : s <> EmptyString -> falsy (Some s) = false.
Proof. apply is_empty_false. Qed.

Lemma or_else_nonempty x d : d <> EmptyString -> or_else x d <> EmptyString.
Proof. destruct x as [[|c s]|]; simpl; done. Qed.

Lemma calm_now w n : calm w (S n) -> outage w (length (trace w)) = false.
Proof. intros H. rewrite <- (Nat.add_0_r (length (trace w))). apply H. lia. Qed.

Lemma objects_log b e w : objects b (log e w) = objects b w.
Proof. by destruct b. Qed.

Lemma objects_tick b w : objects b (tick w) = objects b w.
Proof. by destruct b. Qed.

Lemma objects_set_kv b m w : objects b (set_kv m w) = objects b w.
Proof. by destruct b. Qed.

Lemma objects_set_objects b m w : objects b (set_objects b m w) = m.
Proof. by destruct b. Qed.

Lemma objects_set_objects_other isPublic m w :
  objects (other_bucket isPublic) (set_objects (select_bucket isPublic) m w)
  = objects (other_bucket isPublic) w.
Proof. by destruct isPublic. Qed.

Lemma io_succeeds {A} (o : Op) (run : World -> A * World) w :
  outage w (length (trace w)) = false ->
  io o run w = (Ret (run w).1, log (succeeded o) (run w).2).
Proof. intros H. unfold io. rewrite H. by destruct (run w). Qed.

Lemma bind_Ret {A B} (m : M A) (f : A -> M B) w a w' :
  m w = (Ret a, w') -> bind m f w = f a w'.
Proof. intros H. unfold bind. by rewrite H. Qed.

(** The metadata text a handler writes is read back as the object it was
    printed from. *)
Lemma parse_JSON_stringify m :
  JSON.parse (JSON_stringify m) = Some (BlobMetadata.to_object m).
Proof. by apply JSON_facts.parse_stringify. Qed.

Lemma JSON_stringify_nonempty m : JSON_stringify m <> EmptyString.
Proof. done. Qed.

Section Runs.

Context (P : Platform).

(** The world a successful direct upload leaves. *)
Lemma upload_succeeds req w namespace key :
  x_blob_namespace req = Some namespace -> x_blob_key req = Some key ->
  namespace <> EmptyString -> key <> EmptyString ->
  arrayBuffer req <> [] -> calm w 2 ->
  let isPublic := strict_eq (x_blob_public req) "true" in
  let bucket := select_bucket isPublic in
  let object :=
    {| body := arrayBuffer req;
       httpMetadata_contentType := or_else (content_type req) "application/octet-stream" |} in
  let metadata :=
    BlobMetadata.mk key namespace (Z.of_nat (length (arrayBuffer req)))
      (or_else (content_type req) "application/octet-stream")
      (toISOString P (clock w (clock_reads w))) isPublic in
  BlobUploadEndpoint_handle P req w =
    (Ret (c_json (UploadBody metadata) 200),
     log (succeeded (KV_put (kvKey namespace key) (JSON_stringify metadata)))
       (set_kv (<[kvKey namespace key := JSON_stringify metadata]> (kv w))
          (tick
             (log (succeeded (R2_put bucket (r2Key namespace key) object))
                (set_objects bucket
                   (<[r2Key namespace key := object]> (objects bucket w)) w))))).
Proof.
  intros Hns Hkey Hns' Hkey' Hbody Hcalm. simpl.
  unfold BlobUploadEndpoint_handle.
  rewrite Hns, Hkey, (falsy_Some _ Hns'), (falsy_Some _ Hkey'). simpl.
  destruct (arrayBuffer req) as [|x payload] eqn:Hpayload; [done |].
  replace (Z.of_nat (length (x :: payload)) =? 0) with false
    by (symmetry; apply Z.eqb_neq; simpl; lia).
  erewrite bind_Ret; [| apply io_succeeds, (calm_now _ _ Hcalm)].
  simpl.
  erewrite bind_Ret; [| reflexivity].
  erewrite bind_Ret; [| apply io_succeeds].
  - reflexivity.
  - simpl. rewrite length_app. simpl. apply Hcalm. lia.
Qed.

(** ** The download route *)

Lemma parsed_nonempty text o : JSON.parse text = Some o -> falsy (Some text) = false.
Proof. by destruct text. Qed.

Lemma download_no_metadata w namespace key :
  namespace <> EmptyString -> key <> EmptyString ->
  falsy (kv w !! kvKey namespace key) = true -> calm w 1 ->
  registerBlobDownloadRoute (Some namespace) (Some key) w =
    (Ret BlobNotFound, log (succeeded (KV_get (kvKey namespace key))) w).
Proof.
  intros Hns Hkey Hkv Hcalm. unfold registerBlobDownloadRoute.
  rewrite (falsy_Some _ Hns), (falsy_Some _ Hkey). simpl.
  erewrite bind_Ret; [| apply io_succeeds, (calm_now _ _ Hcalm)].
  simpl. by rewrite Hkv.
Qed.

Lemma download_reads_object w namespace key text metadata :
  namespace <> EmptyString -> key <> EmptyString ->
  kv w !! kvKey namespace key = Some text -> JSON.parse text = Some metadata ->
  calm w 2 ->
  let bucket := select_bucket (JSON.truthy (JSON.get "isPublic" metadata)) in
  let w' := log (succeeded (R2_get bucket (r2Key namespace key)))
              (log (succeeded (KV_get (kvKey namespace key))) w) in
  registerBlobDownloadRoute (Some namespace) (Some key) w =
    match objects bucket w !! r2Key namespace key with
    | None => (Ret ObjectNotFound, w')
    | Some object =>
      (Ret (stream (body object) 200
              [ ("Content-Type",
                 if JSON.truthy (JSON.get "contentType" metadata)
                 then JSON.String_ (JSON.get "contentType" metadata)
                 else "application/octet-stream");
                ("Content-Length", JSON.String_ (JSON.get "size" metadata));
                ("Content-Disposition", attachment key) ]), w')
    end.
Proof.
  intros Hns Hkey Hkv Hparse Hcalm. simpl. unfold registerBlobDownloadRoute.
  rewrite (falsy_Some _ Hns), (falsy_Some _ Hkey). simpl.
  erewrite bind_Ret; [| apply io_succeeds, (calm_now _ _ Hcalm)].
  simpl. rewrite Hkv, (parsed_nonempty _ _ Hparse).
  erewrite bind_Ret; [| unfold JSON_parse; simpl; rewrite Hparse; reflexivity].
  erewrite bind_Ret; [| apply io_succeeds].
  - simpl. rewrite objects_log. by destruct (objects _ w !! _).
  - simpl. rewrite length_app. simpl. apply Hcalm. lia.
Qed.

End Runs.

(** C1.  A direct upload with a non-empty namespace, key and payload, with
    either visibility, followed at once by a stream download of the same
    (namespace, key): the upload answers 200 with the metadata it recorded,
    and the download answers 200 with exactly the uploaded bytes, the
    Content-Length being the recorded size (the length of the payload) and
    the Content-Type the recorded content type.  The four interactions of
    the two requests are assumed to succeed. *)
Theorem upload_then_download_roundtrip (P : Platform) (req : UploadRequest) (w : World)
    (namespace key : string) :
  x_blob_namespace req = Some namespace -> x_blob_key req = Some key ->
  namespace <> EmptyString -> key <> EmptyString ->
  arrayBuffer req <> [] ->
  calm w 4 ->
  exists metadata w1 w2,
    BlobUploadEndpoint_handle P req w = (Ret (c_json (UploadBody metadata) 200), w1) /\
    BlobMetadata.size metadata = Z.of_nat (length (arrayBuffer req)) /\
    BlobMetadata.contentType metadata
      = or_else (content_type req) "application/octet-stream" /\
    BlobMetadata.isPublic metadata = strict_eq (x_blob_public req) "true" /\
    registerBlobDownloadRoute (Some namespace) (Some key) w1 =
      (Ret (stream (arrayBuffer req) 200
              [ ("Content-Type", BlobMetadata.contentType metadata);
                ("Content-Length", JSON.Number_toString (BlobMetadata.size metadata));
                ("Content-Disposition", attachment key) ]), w2).
Proof.
  intros Hns Hkey Hns' Hkey' Hbody Hcalm.
  assert (calm w 2) as Hcalm2 by (intros i Hi; apply Hcalm; lia).
  pose proof (upload_succeeds P req w namespace key Hns Hkey Hns' Hkey' Hbody Hcalm2) as Hup.
  cbv zeta in Hup.
  match type of Hup with
  | _ = (Ret (c_json (UploadBody ?m) 200), ?w') =>
    set (metadata := m) in *; set (w1 := w') in *
  end.
  exists metadata, w1. eexists. split; [exact Hup |].
  split; [done |]. split; [done |]. split; [done |].
  rewrite (download_reads_object w1 namespace key (JSON_stringify metadata)
             (BlobMetadata.to_object metadata)); try done.
  - cbn [BlobMetadata.to_object JSON.get JSON.truthy String.eqb Ascii.eqb Bool.eqb
         BlobMetadata.isPublic BlobMetadata.contentType BlobMetadata.size JSON.String_
         metadata].
    unfold w1.
    rewrite objects_log, objects_set_kv, objects_tick, objects_log, objects_set_objects.
    rewrite lookup_insert_eq. cbn [body].
    by rewrite (proj2 (String.eqb_neq _ _)
                  (or_else_nonempty (content_type req) "application/octet-stream"
                     ltac:(done))).
  - apply lookup_insert_eq.
  - apply parse_JSON_stringify.
  - intros i Hi. simpl. rewrite !length_app. simpl.
    replace (length (trace w) + 1 + 1 + i)%nat with (length (trace w) + (2 + i))%nat by lia.
    apply Hcalm. lia.
Qed.


Section UploadRuns.

Context (P : Platform).

(** Every run of the direct upload. *)
Lemma upload_run req w :
  let run := BlobUploadEndpoint_handle P req w in
  if falsy (x_blob_namespace req) || falsy (x_blob_key req) then
    run = (Ret (c_json (ErrorBody 400 "Missing x-blob-namespace or x-blob-key header")
                  400), w)
  else
    let namespace := narrowed (x_blob_namespace req) in
    let key := narrowed (x_blob_key req) in
    let isPublic := strict_eq (x_blob_public req) "true" in
    let contentType := or_else (content_type req) "application/octet-stream" in
    let size := Z.of_nat (length (arrayBuffer req)) in
    if size =? 0 then run = (Ret (c_json (ErrorBody 400 "Empty file") 400), w)
    else
      let bucket := select_bucket isPublic in
      let object :=
        {| body := arrayBuffer req; httpMetadata_contentType := contentType |} in
      let put := R2_put bucket (r2Key namespace key) object in
      if outage w (length (trace w)) then run = (Throw (IOError put), log (failed put) w)
      else
        let w1 :=
          tick (log (succeeded put)
                  (set_objects bucket
                     (<[r2Key namespace key := object]> (objects bucket w)) w)) in
        let metadata :=
          BlobMetadata.mk key namespace size contentType
            (toISOString P (clock w (clock_reads w))) isPublic in
        let write := KV_put (kvKey namespace key) (JSON_stringify metadata) in
        if outage w (S (length (trace w))) then
          run = (Throw (IOError write), log (failed write) w1)
        else
          run =
            (Ret (c_json (UploadBody metadata) 200),
             log (succeeded write)
               (set_kv (<[kvKey namespace key := JSON_stringify metadata]> (kv w)) w1)).
Proof.
  simpl. unfold BlobUploadEndpoint_handle.
  destruct (falsy (x_blob_namespace req) || falsy (x_blob_key req)); [done |].
  destruct (Z.of_nat (length (arrayBuffer req)) =? 0); [done |].
  autounfold with handler.
  destruct (outage w (length (trace w))); [done |].
  simpl. rewrite length_app, Nat.add_1_r.
  by destruct (outage w (S (length (trace w)))).
Qed.

End UploadRuns.

(** C2.  In the direct upload the metadata record is written only after the
    object write has succeeded: in the interactions of any run, whatever the
    request and whichever interactions fail, a write to the metadata store
    is preceded by a successful write to an object store; when the object
    write fails, the run ends there with that failure, makes no write to the
    metadata store and leaves the metadata store unchanged; and the metadata
    store differs after the run only if the run was a successful object
    write followed by a successful metadata write. *)
Theorem upload_metadata_after_object_write (P : Platform) (req : UploadRequest)
    (w w' : World) (res : Result Response) :
  BlobUploadEndpoint_handle P req w = (res, w') ->
  exists new,
    trace w' = trace w ++ new /\
    (forall i k v b,
       new !! i = Some {| op := KV_put k v; ok := b |} ->
       exists j bucket k' o,
         (j < i)%nat /\ new !! j = Some (succeeded (R2_put bucket k' o))) /\
    (forall bucket k o,
       failed (R2_put bucket k o) ∈ new ->
       res = Throw (IOError (R2_put bucket k o)) /\
       new = [failed (R2_put bucket k o)] /\
       kv w' = kv w) /\
    (kv w' <> kv w ->
     exists bucket k o k' v,
       new = [succeeded (R2_put bucket k o); succeeded (KV_put k' v)]).
Proof.
  intros Hrun. pose proof (upload_run P req w) as H. cbv zeta in H.
  destruct (falsy (x_blob_namespace req) || falsy (x_blob_key req));
    [| destruct (Z.of_nat (length (arrayBuffer req)) =? 0);
       [| destruct (outage w (length (trace w)));
          [| destruct (outage w (S (length (trace w))))]]];
    rewrite H in Hrun; injection Hrun as <- <-.
  - exists []. split; [by rewrite app_nil_r |]. split; [by intros i k v b Hi |].
    split; [| done]. intros bucket k o Hin. by apply not_elem_of_nil in Hin.
  - exists []. split; [by rewrite app_nil_r |]. split; [by intros i k v b Hi |].
    split; [| done]. intros bucket k o Hin. by apply not_elem_of_nil in Hin.
  - eexists [_]. split; [done |]. split; [by intros [|i] k v b Hi |].
    split; [| done]. intros bucket k o Hin. apply list_elem_of_singleton in Hin.
    by injection Hin as <- <- <-.
  - eexists [_; _]. split; [simpl; by rewrite <- app_assoc |]. split; [| split].
    + intros [|[|i]] k v b Hi; [done | | done].
      eexists 0%nat, _, _, _. split; [lia | done].
    + intros bucket k o Hin.
      apply elem_of_cons in Hin as [Hin | Hin]; [done |].
      by apply list_elem_of_singleton in Hin.
    + done.
  - eexists [_; _]. split; [simpl; by rewrite <- app_assoc |]. split; [| split].
    + intros [|[|i]] k v b Hi; [done | | done].
      eexists 0%nat, _, _, _. split; [lia | done].
    + intros bucket k o Hin.
      apply elem_of_cons in Hin as [Hin | Hin]; [done |].
      by apply list_elem_of_singleton in Hin.
    + intros _. by eexists _, _, _, _, _.
Qed.

Section OtherRuns.

Context (P : Platform).

(** Every run of the download route. *)
Lemma download_run namespace key w :
  let run := registerBlobDownloadRoute namespace key w in
  if falsy namespace || falsy key then
    run = (Ret (c_json (ErrorBody 400 "Missing namespace or key") 400), w)
  else
    let namespace := narrowed namespace in
    let key := narrowed key in
    let read := KV_get (kvKey namespace key) in
    if outage w (length (trace w)) then run = (Throw (IOError read), log (failed read) w)
    else
      let w1 := log (succeeded read) w in
      let metadataStr := kv w !! kvKey namespace key in
      if falsy metadataStr then run = (Ret BlobNotFound, w1)
      else
        match JSON.parse (narrowed metadataStr) with
        | None => run = (Throw SyntaxError, w1)
        | Some metadata =>
          let bucket := select_bucket (JSON.truthy (JSON.get "isPublic" metadata)) in
          let fetch := R2_get bucket (r2Key namespace key) in
          if outage w (S (length (trace w))) then
            run = (Throw (IOError fetch), log (failed fetch) w1)
          else
            let w2 := log (succeeded fetch) w1 in
            match objects bucket w !! r2Key namespace key with
            | None => run = (Ret ObjectNotFound, w2)
            | Some object =>
              run =
                (Ret (stream (body object) 200
                        [ ("Content-Type",
                           if JSON.truthy (JSON.get "contentType" metadata)
                           then JSON.String_ (JSON.get "contentType" metadata)
                           else "application/octet-stream");
                          ("Content-Length", JSON.String_ (JSON.get "size" metadata));
                          ("Content-Disposition", attachment key) ]), w2)
            end
        end.
Proof.
  simpl. unfold registerBlobDownloadRoute.
  destruct (falsy namespace || falsy key); [done |].
  autounfold with handler.
  destruct (outage w (length (trace w))); [done |].
  destruct (falsy (kv w !! _)); [done |].
  destruct (JSON.parse _) as [metadata|]; [| done].
  simpl. rewrite length_app, Nat.add_1_r.
  destruct (outage w (S (length (trace w)))); [done |].
  rewrite objects_log. by destruct (objects _ w !! _).
Qed.

(** Every run of get-reference. *)
Lemma get_run req w :
  let run := BlobGetEndpoint_handle P req w in
  match req_json req ≫= BlobGetRequest P with
  | None => run = (Throw ValidationError, w)
  | Some (namespace, key) =>
    let read := KV_get (kvKey namespace key) in
    if outage w (length (trace w)) then run = (Throw (IOError read), log (failed read) w)
    else
      let w1 := log (succeeded read) w in
      let metadataStr := kv w !! kvKey namespace key in
      if falsy metadataStr then run = (Ret BlobNotFound, w1)
      else
        match JSON.parse (narrowed metadataStr) with
        | None => run = (Throw SyntaxError, w1)
        | Some metadata =>
          run =
            (Ret (c_json
                    (GetBody (URL_origin P (url req) +:+ "/blob/download/"
                                +:+ encodeURIComponent namespace +:+ "/"
                                +:+ encodeURIComponent key) metadata) 200), w1)
        end
  end.
Proof.
  simpl. unfold BlobGetEndpoint_handle. autounfold with handler.
  destruct (req_json req) as [body|]; [| done]. simpl.
  destruct (BlobGetRequest P body) as [[namespace key]|]; [| done]. simpl.
  destruct (outage w (length (trace w))); [done |].
  destruct (falsy (kv w !! _)); [done |].
  by destruct (JSON.parse _).
Qed.

(** Every run of the presigned upload. *)
Lemma presign_run req w :
  let run := BlobPresignUploadEndpoint_handle P req w in
  if negb (signing_configured w) then
    run = (Ret (c_json (ErrorBody 503 "R2 credentials not configured for presigned URLs")
                  503), w)
  else
    match req_json req with
    | None => run = (Throw SyntaxError, w)
    | Some body =>
      match PresignUploadRequest.safeParse P body with
      | None => run = (Ret (c_json (ErrorBody 400 "Invalid request body") 400), w)
      | Some parsed =>
        let namespace := PresignUploadRequest.namespace parsed in
        let key := PresignUploadRequest.key parsed in
        let isPublic := PresignUploadRequest.isPublic parsed in
        let client :=
          {| region := "auto";
             endpoint := "https://" +:+ narrowed (R2_ACCOUNT_ID w)
                           +:+ ".r2.cloudflarestorage.com";
             accessKeyId := narrowed (R2_ACCESS_KEY_ID w);
             secretAccessKey := narrowed (R2_SECRET_ACCESS_KEY w) |} in
        let command :=
          {| Bucket_ := if isPublic then "federise-objects-public" else "federise-objects";
             Key := r2Key namespace key;
             ContentType := PresignUploadRequest.contentType parsed;
             ContentLength := PresignUploadRequest.size parsed |} in
        let sign := Sign client command 3600 in
        if outage w (length (trace w)) then run = (Throw (IOError sign), log (failed sign) w)
        else
          let w1 := tick (tick (log (succeeded sign) w)) in
          let metadata :=
            BlobMetadata.mk key namespace (PresignUploadRequest.size parsed)
              (PresignUploadRequest.contentType parsed)
              (toISOString P (clock w (S (clock_reads w)))) isPublic in
          let write := KV_put (kvKey namespace key) (JSON_stringify metadata) in
          if outage w (S (length (trace w))) then
            run = (Throw (IOError write), log (failed write) w1)
          else
            run =
              (Ret (c_json
                      (PresignBody (getSignedUrl P client command 3600)
                         (toISOString P (clock w (clock_reads w) + 3600 * 1000))) 200),
               log (succeeded write)
                 (set_kv (<[kvKey namespace key := JSON_stringify metadata]> (kv w)) w1))
      end
    end.
Proof.
  simpl. unfold BlobPresignUploadEndpoint_handle, signing_configured.
  autounfold with handler. rewrite negb_involutive.
  destruct (falsy (R2_ACCOUNT_ID w) || falsy (R2_ACCESS_KEY_ID w)
            || falsy (R2_SECRET_ACCESS_KEY w)); [done |].
  destruct (req_json req) as [body|]; [| done].
  destruct (PresignUploadRequest.safeParse P body) as [parsed|]; [| done].
  destruct (outage w (length (trace w))); [done |].
  simpl. rewrite length_app, Nat.add_1_r.
  by destruct (outage w (S (length (trace w)))).
Qed.

End OtherRuns.

(** C3, as amended.  A direct upload whose payload has zero length is
    answered 400 and leaves the world as it was: no interaction with either
    store takes place, so nothing is written; the message is "Empty file"
    when namespace and key are present and not empty.  When the metadata
    store held no record for that (namespace, key) before the request, a
    retrieval that follows, by the download route or by get-reference,
    answers 404 "Blob not found". *)
Theorem empty_upload_rejected (P : Platform) (req : UploadRequest) (w : World) :
  arrayBuffer req = [] ->
  exists message,
    BlobUploadEndpoint_handle P req w = (Ret (c_json (ErrorBody 400 message) 400), w) /\
    (falsy (x_blob_namespace req) || falsy (x_blob_key req) = false ->
     message = "Empty file") /\
    (forall namespace key,
       x_blob_namespace req = Some namespace -> x_blob_key req = Some key ->
       namespace <> EmptyString -> key <> EmptyString ->
       kv w !! kvKey namespace key = None -> calm w 1 ->
       (registerBlobDownloadRoute (Some namespace) (Some key) w).1 = Ret BlobNotFound /\
       (forall req',
          req_json req' ≫= BlobGetRequest P = Some (namespace, key) ->
          (BlobGetEndpoint_handle P req' w).1 = Ret BlobNotFound)).
Proof.
  intros Hbody. pose proof (upload_run P req w) as H. cbv zeta in H.
  rewrite Hbody in H. simpl in H.
  assert (forall namespace key,
            namespace <> EmptyString -> key <> EmptyString ->
            kv w !! kvKey namespace key = None -> calm w 1 ->
            (registerBlobDownloadRoute (Some namespace) (Some key) w).1 = Ret BlobNotFound /\
            (forall req',
               req_json req' ≫= BlobGetRequest P = Some (namespace, key) ->
               (BlobGetEndpoint_handle P req' w).1 = Ret BlobNotFound)) as Hnext.
  { intros namespace key Hns Hkey Hkv Hcalm. split.
    - by rewrite (download_no_metadata w namespace key Hns Hkey) by (by rewrite ?Hkv).
    - intros req' Hreq. pose proof (get_run P req' w) as Hget. cbv zeta in Hget.
      rewrite Hreq, (calm_now _ _ Hcalm), Hkv in Hget. simpl in Hget. by rewrite Hget. }
  destruct (falsy (x_blob_namespace req) || falsy (x_blob_key req)).
  - eexists. split; [exact H |]. split; [done |]. eauto.
  - eexists. split; [exact H |]. split; [done |]. eauto.
Qed.


(** ** The key codec *)

Lemma kvKey_longer namespace key :
  String.length (kvKey namespace key) = (7 + String.length (r2Key namespace key))%nat.
Proof. reflexivity. Qed.

Lemma kvKey_not_r2Key namespace key : kvKey namespace key <> r2Key namespace key.
Proof.
  intros H. apply (f_equal String.length) in H. rewrite kvKey_longer in H. lia.
Qed.

(** A storage key that is also a metadata key belongs to a namespace that
    starts with the reserved word. *)
Lemma r2Key_kvKey_reserved namespace key namespace' key' :
  kvKey namespace key = r2Key namespace' key' ->
  exists rest, namespace' = "__BLOB" +:+ rest.
Proof.
  unfold kvKey, r2Key. intros H.
  do 6 (destruct namespace' as [|? namespace']; [discriminate H |];
        injection H as <- H).
  by exists namespace'.
Qed.

Section Addressing.

Context (P : Platform).

#[local] Arguments String.append : simpl never.

Lemma upload_addresses req w :
  exists new,
    trace (BlobUploadEndpoint_handle P req w).2 = trace w ++ new /\
    Forall (addresses (narrowed (x_blob_namespace req)) (narrowed (x_blob_key req))) new.
Proof.
  pose proof (upload_run P req w) as H. guards H; rewrite H;
    cbn [snd trace log set_kv tick set_objects]; new_interactions.
Qed.

Lemma download_addresses namespace key w :
  exists new,
    trace (registerBlobDownloadRoute namespace key w).2 = trace w ++ new /\
    Forall (addresses (narrowed namespace) (narrowed key)) new.
Proof.
  pose proof (download_run namespace key w) as H. guards H; rewrite H;
    cbn [snd trace log]; new_interactions.
Qed.

Lemma get_addresses req w namespace key :
  req_json req ≫= BlobGetRequest P = Some (namespace, key) ->
  exists new,
    trace (BlobGetEndpoint_handle P req w).2 = trace w ++ new /\
    Forall (addresses namespace key) new.
Proof.
  intros Hreq. pose proof (get_run P req w) as H. cbv zeta in H. rewrite Hreq in H.
  guards H; rewrite H; cbn [snd trace log]; new_interactions.
Qed.

Lemma presign_addresses req w body parsed :
  req_json req = Some body -> PresignUploadRequest.safeParse P body = Some parsed ->
  exists new,
    trace (BlobPresignUploadEndpoint_handle P req w).2 = trace w ++ new /\
    Forall (addresses (PresignUploadRequest.namespace parsed)
              (PresignUploadRequest.key parsed)) new.
Proof.
  intros Hreq Hparsed. pose proof (presign_run P req w) as H. cbv zeta in H.
  rewrite Hreq, Hparsed in H.
  guards H; rewrite H; cbn [snd trace log set_kv tick]; new_interactions.
Qed.

End Addressing.

(** C5, as amended.  The storage key of (namespace, key) is
    namespace + ":" + key; the metadata key is the reserved prefix "__BLOB:"
    followed by the storage key, so it is never the storage key of the same
    pair, and it is the storage key of a pair only when that pair's
    namespace starts with "__BLOB".  Every operation derives the keys this
    way: each interaction of the direct upload, the download, get-reference
    and the presigned upload uses the storage key on the buckets and in the
    signed command, and the metadata key on the key-value store. *)
Theorem key_codec (P : Platform) :
  (forall namespace key,
     r2Key namespace key = namespace +:+ ":" +:+ key /\
     kvKey namespace key = "__BLOB:" +:+ r2Key namespace key /\
     kvKey namespace key <> r2Key namespace key) /\
  (forall namespace key namespace' key',
     kvKey namespace key = r2Key namespace' key' ->
     exists rest, namespace' = "__BLOB" +:+ rest) /\
  (forall req w,
     exists new,
       trace (BlobUploadEndpoint_handle P req w).2 = trace w ++ new /\
       Forall (addresses (narrowed (x_blob_namespace req)) (narrowed (x_blob_key req)))
         new) /\
  (forall namespace key w,
     exists new,
       trace (registerBlobDownloadRoute namespace key w).2 = trace w ++ new /\
       Forall (addresses (narrowed namespace) (narrowed key)) new) /\
  (forall req w namespace key,
     req_json req ≫= BlobGetRequest P = Some (namespace, key) ->
     exists new,
       trace (BlobGetEndpoint_handle P req w).2 = trace w ++ new /\
       Forall (addresses namespace key) new) /\
  (forall req w body parsed,
     req_json req = Some body -> PresignUploadRequest.safeParse P body = Some parsed ->
     exists new,
       trace (BlobPresignUploadEndpoint_handle P req w).2 = trace w ++ new /\
       Forall (addresses (PresignUploadRequest.namespace parsed)
                 (PresignUploadRequest.key parsed)) new).
Proof.
  split; [| split; [| split; [| split; [| split]]]].
  - intros namespace key. split; [done |]. split; [done |]. apply kvKey_not_r2Key.
  - apply r2Key_kvKey_reserved.
  - apply upload_addresses.
  - apply download_addresses.
  - apply get_addresses.
  - apply presign_addresses.
Qed.

(** C6, as amended.  The visibility flag determines the physical store.  A
    direct upload with flag [isPublic] writes the object to the bucket the
    flag selects and leaves the other bucket as it was, so the other bucket
    holds an object under that key only if it did before; the download that
    follows reads the metadata and then that same bucket.  In general the
    download route reads the bucket selected by the [isPublic] member of the
    stored metadata, and the presigned upload signs for the bucket name the
    flag of the request selects and records that flag.  Interactions are
    assumed to succeed. *)
Theorem visibility_selects_store (P : Platform) :
  (forall req w namespace key,
     x_blob_namespace req = Some namespace -> x_blob_key req = Some key ->
     namespace <> EmptyString -> key <> EmptyString ->
     arrayBuffer req <> [] -> calm w 4 ->
     let isPublic := strict_eq (x_blob_public req) "true" in
     exists metadata w1 response w2,
       BlobUploadEndpoint_handle P req w = (Ret (c_json (UploadBody metadata) 200), w1) /\
       BlobMetadata.isPublic metadata = isPublic /\
       objects (select_bucket isPublic) w1 !! r2Key namespace key
         = Some {| body := arrayBuffer req;
                   httpMetadata_contentType :=
                     or_else (content_type req) "application/octet-stream" |} /\
       objects (other_bucket isPublic) w1 = objects (other_bucket isPublic) w /\
       registerBlobDownloadRoute (Some namespace) (Some key) w1 = (Ret response, w2) /\
       trace w2 = trace w1 ++
         [ succeeded (KV_get (kvKey namespace key));
           succeeded (R2_get (select_bucket isPublic) (r2Key namespace key)) ]) /\
  (forall namespace key w text metadata,
     namespace <> EmptyString -> key <> EmptyString ->
     kv w !! kvKey namespace key = Some text -> JSON.parse text = Some metadata ->
     calm w 2 ->
     trace (registerBlobDownloadRoute (Some namespace) (Some key) w).2 = trace w ++
       [ succeeded (KV_get (kvKey namespace key));
         succeeded (R2_get (select_bucket (JSON.truthy (JSON.get "isPublic" metadata)))
                      (r2Key namespace key)) ]) /\
  (forall req w w1 uploadUrl expiresAt,
     BlobPresignUploadEndpoint_handle P req w
       = (Ret (c_json (PresignBody uploadUrl expiresAt) 200), w1) ->
     exists body parsed client command text metadata,
       req_json req = Some body /\
       PresignUploadRequest.safeParse P body = Some parsed /\
       trace w1 = trace w ++
         [ succeeded (Sign client command 3600);
           succeeded (KV_put (kvKey (PresignUploadRequest.namespace parsed)
                                (PresignUploadRequest.key parsed)) text) ] /\
       Bucket_ command
         = (if PresignUploadRequest.isPublic parsed
            then "federise-objects-public" else "federise-objects") /\
       JSON.parse text = Some metadata /\
       JSON.get "isPublic" metadata
         = Some (JSON.VBool (PresignUploadRequest.isPublic parsed)) /\
       r2 w1 = r2 w /\ r2_public w1 = r2_public w).
Proof.
  split; [| split].
  - intros req w namespace key Hns Hkey Hns' Hkey' Hbody Hcalm isPublic.
    assert (calm w 2) as Hcalm2 by (intros i Hi; apply Hcalm; lia).
    pose proof (upload_succeeds P req w namespace key Hns Hkey Hns' Hkey' Hbody Hcalm2) as Hup.
    cbv zeta in Hup.
    match type of Hup with
    | _ = (Ret (c_json (UploadBody ?m) 200), ?w') =>
      set (metadata := m) in *; set (w1 := w') in *
    end.
    assert (calm w1 2) as Hcalm1.
    { intros i Hi. simpl. rewrite !length_app. simpl.
      replace (length (trace w) + 1 + 1 + i)%nat with (length (trace w) + (2 + i))%nat by lia.
      apply Hcalm. lia. }
    assert (objects (select_bucket isPublic) w1 !! r2Key namespace key
            = Some {| body := arrayBuffer req;
                      httpMetadata_contentType :=
                        or_else (content_type req) "application/octet-stream" |}) as Hobj.
    { unfold w1.
      rewrite objects_log, objects_set_kv, objects_tick, objects_log, objects_set_objects.
      apply lookup_insert_eq. }
    pose proof (download_reads_object w1 namespace key (JSON_stringify metadata)
                  (BlobMetadata.to_object metadata) Hns' Hkey'
                  (lookup_insert_eq _ _ _) (parse_JSON_stringify _) Hcalm1) as Hdown.
    cbv zeta in Hdown.
    cbn [BlobMetadata.to_object JSON.get JSON.truthy String.eqb Ascii.eqb Bool.eqb
         BlobMetadata.isPublic metadata] in Hdown.
    fold isPublic in Hdown. rewrite Hobj in Hdown.
    exists metadata, w1. eexists _, _.
    split; [exact Hup |]. split; [done |]. split; [exact Hobj |].
    split; [| split; [exact Hdown |]].
    + unfold w1.
      rewrite objects_log, objects_set_kv, objects_tick, objects_log.
      apply objects_set_objects_other.
    + simpl. by rewrite <- app_assoc.
  - intros namespace key w text metadata Hns Hkey Hkv Hparse Hcalm.
    rewrite (download_reads_object w namespace key text metadata Hns Hkey Hkv Hparse Hcalm).
    destruct (objects _ w !! _); simpl; by rewrite <- app_assoc.
  - intros req w w1 uploadUrl expiresAt Hrun.
    pose proof (presign_run P req w) as H. cbv zeta in H.
    destruct (negb (signing_configured w)); [by rewrite H in Hrun |].
    destruct (req_json req) as [body|]; [| by rewrite H in Hrun].
    destruct (PresignUploadRequest.safeParse P body) as [parsed|] eqn:Hparsed;
      [| by rewrite H in Hrun].
    destruct (outage w (length (trace w))); [by rewrite H in Hrun |].
    destruct (outage w (S (length (trace w)))); [by rewrite H in Hrun |].
    rewrite H in Hrun. injection Hrun as _ _ <-. clear H.
    eexists body, parsed, _, _, _, _.
    split; [done |]. split; [done |].
    split; [simpl; by rewrite <- app_assoc |].
    split; [done |].
    split; [apply parse_JSON_stringify |]. done.
Qed.

(** C8, as amended.  With signing credentials configured, a presign request
    whose body is an object with a numeric size that is zero, negative or
    not an integer is answered 400 and leaves the world as it was: the
    signer is not called and no metadata record is written. *)
Theorem presign_rejects_bad_size (P : Platform) (req : JsonRequest) (w : World)
    (members : list (string * json)) (size : Q) :
  signing_configured w = true ->
  req_json req = Some (JObj members) ->
  json_member "size" members = Some (JNum size) ->
  (size <= 0)%Q \/ PresignUploadRequest.Number_isInteger size = false ->
  BlobPresignUploadEndpoint_handle P req w
    = (Ret (c_json (ErrorBody 400 "Invalid request body") 400), w).
Proof.
  intros Hcfg Hreq Hsize Hbad.
  pose proof (presign_run P req w) as H. cbv zeta in H.
  rewrite Hcfg, Hreq in H. simpl in H. rewrite Hsize in H.
  assert (PresignUploadRequest.z_number_int_positive (Some (JNum size)) = None) as Hz.
  { unfold PresignUploadRequest.z_number_int_positive.
    destruct Hbad as [Hle | Hint].
    - unfold Qle in Hle. simpl in Hle.
      replace (0 <? Qnum size) with false by (symmetry; apply Z.ltb_ge; lia).
      by rewrite andb_false_r.
    - by rewrite Hint. }
  rewrite Hz in H.
  destruct (NamespaceValue P _); simpl in H; [| done].
  destruct (PresignUploadRequest.z_string (json_member "key" members)); simpl in H; [| done].
  by destruct (PresignUploadRequest.z_string (json_member "contentType" members)).
Qed.

(** C9.  A presign request made while signing credentials are not
    configured is answered 503 and leaves the world as it was: the metadata
    store is unchanged and the trace has no new interaction, so there is no
    metadata write and no signer call. *)
Theorem presign_unconfigured (P : Platform) (req : JsonRequest) (w : World) :
  signing_configured w = false ->
  exists w',
    BlobPresignUploadEndpoint_handle P req w
      = (Ret (c_json (ErrorBody 503 "R2 credentials not configured for presigned URLs")
                503), w') /\
    kv w' = kv w /\ trace w' = trace w /\ w' = w.
Proof.
  intros Hcfg. pose proof (presign_run P req w) as H. cbv zeta in H.
  rewrite Hcfg in H. by exists w.
Qed.

(** C10.  The presigned upload checks the signing credentials before it
    reads or validates the body.  Whatever the request, also one whose body
    is not JSON or fails the schema, the answer without credentials is 503;
    an answer with status 400 occurs only with credentials configured, and
    then the body was read and failed the schema; and a body that is not
    JSON makes the handler throw only when credentials are configured. *)
Theorem presign_checks_credentials_first (P : Platform) (req : JsonRequest)
    (w w' : World) (res : Result Response) :
  BlobPresignUploadEndpoint_handle P req w = (res, w') ->
  (signing_configured w = false ->
   res = Ret (c_json (ErrorBody 503 "R2 credentials not configured for presigned URLs")
                503)) /\
  (forall b, res = Ret (c_json b 400) ->
     signing_configured w = true /\
     exists body, req_json req = Some body /\
                  PresignUploadRequest.safeParse P body = None) /\
  (res = Throw SyntaxError -> signing_configured w = true /\ req_json req = None) /\
  (signing_configured w = true -> req_json req = None -> res = Throw SyntaxError).
Proof.
  intros Hrun. pose proof (presign_run P req w) as H. cbv zeta in H.
  destruct (signing_configured w); simpl in H.
  - destruct (req_json req) as [body|].
    + destruct (PresignUploadRequest.safeParse P body) as [parsed|] eqn:Hparsed.
      * destruct (outage w (length (trace w)));
          [| destruct (outage w (S (length (trace w))))];
          rewrite H in Hrun; injection Hrun as <- <-; by repeat split.
      * rewrite H in Hrun. injection Hrun as <- <-.
        repeat split; try done. by exists body.
    + rewrite H in Hrun. injection Hrun as <- <-. by repeat split.
  - rewrite H in Hrun. injection Hrun as <- <-. by repeat split.
Qed.

(* ===================================================================== *)
(** * Worked examples *)
(* ===================================================================== *)

Section Examples.

Import Example.

Lemma calm_w0 n : calm w0 n.
Proof. intros i _. reflexivity. Defined.

(** The scenario of the specification: upload "hello" as docs/readme.txt,
    then download it. *)
Example upload_docs_readme :
  (BlobUploadEndpoint_handle platform docs_readme w0).1
  = Ret (c_json (UploadBody
                   (BlobMetadata.mk "readme.txt" "docs" 5 "text/plain"
                      "1700000000000" false)) 200).
Proof. reflexivity. Qed.

Example download_docs_readme :
  (registerBlobDownloadRoute (Some "docs") (Some "readme.txt")
     (after (BlobUploadEndpoint_handle platform docs_readme) w0)).1
  = Ret (stream hello 200
           [ ("Content-Type", "text/plain"); ("Content-Length", "5");
             ("Content-Disposition", attachment "readme.txt") ]).
Proof. vm_compute. reflexivity. Qed.

Example get_unknown :
  (BlobGetEndpoint_handle platform (post (get_body "x" "y")) w0).1 = Ret BlobNotFound.
Proof. vm_compute. reflexivity. Qed.

(** C1 at the scenario of the specification. *)
Lemma upload_then_download_roundtrip_witness :
  exists metadata w1 w2,
    BlobUploadEndpoint_handle platform docs_readme w0
      = (Ret (c_json (UploadBody metadata) 200), w1) /\
    BlobMetadata.size metadata = Z.of_nat (length (arrayBuffer docs_readme)) /\
    BlobMetadata.contentType metadata
      = or_else (content_type docs_readme) "application/octet-stream" /\
    BlobMetadata.isPublic metadata = strict_eq (x_blob_public docs_readme) "true" /\
    registerBlobDownloadRoute (Some "docs") (Some "readme.txt") w1 =
      (Ret (stream (arrayBuffer docs_readme) 200
              [ ("Content-Type", BlobMetadata.contentType metadata);
                ("Content-Length", JSON.Number_toString (BlobMetadata.size metadata));
                ("Content-Disposition", attachment "readme.txt") ]), w2).
Proof.
  apply (upload_then_download_roundtrip platform docs_readme w0 "docs" "readme.txt");
    [reflexivity | reflexivity | discriminate | discriminate | discriminate
    | apply calm_w0].
Defined.

(** C2 where every interaction fails: the object write fails and the
    metadata store is not written. *)
Lemma upload_metadata_after_object_write_witness :
  exists new,
    trace (BlobUploadEndpoint_handle platform docs_readme w_down).2
      = trace w_down ++ new /\
    (forall i k v b,
       new !! i = Some {| op := KV_put k v; ok := b |} ->
       exists j bucket k' o,
         (j < i)%nat /\ new !! j = Some (succeeded (R2_put bucket k' o))) /\
    (forall bucket k o,
       failed (R2_put bucket k o) ∈ new ->
       (BlobUploadEndpoint_handle platform docs_readme w_down).1
         = Throw (IOError (R2_put bucket k o)) /\
       new = [failed (R2_put bucket k o)] /\
       kv (BlobUploadEndpoint_handle platform docs_readme w_down).2 = kv w_down) /\
    (kv (BlobUploadEndpoint_handle platform docs_readme w_down).2 <> kv w_down ->
     exists bucket k o k' v,
       new = [succeeded (R2_put bucket k o); succeeded (KV_put k' v)]).
Proof.
  apply (upload_metadata_after_object_write platform docs_readme w_down).
  apply surjective_pairing.
Defined.

(** C3, as stated, fails on a key that already has a blob: the empty
    upload is refused, and the retrieval that follows serves the blob
    stored before instead of answering 404 "Blob not found". *)
Lemma empty_upload_keeps_existing_blob :
  let w1 := after (BlobUploadEndpoint_handle platform docs_readme) w0 in
  let empty :=
    BlobUploadEndpoint_handle platform (upload "docs" "readme.txt" None []) in
  (empty w1).1 = Ret (c_json (ErrorBody 400 "Empty file") 400) /\
  (registerBlobDownloadRoute (Some "docs") (Some "readme.txt") (after empty w1)).1
    = Ret (stream hello 200
             [ ("Content-Type", "text/plain"); ("Content-Length", "5");
               ("Content-Disposition", attachment "readme.txt") ]) /\
  (registerBlobDownloadRoute (Some "docs") (Some "readme.txt") (after empty w1)).1
    <> Ret BlobNotFound.
Proof. vm_compute. repeat split; discriminate. Qed.

Lemma empty_upload_rejected_witness :
  exists message,
    BlobUploadEndpoint_handle platform (upload "docs" "readme.txt" None []) w0
      = (Ret (c_json (ErrorBody 400 message) 400), w0) /\
    message = "Empty file" /\
    (registerBlobDownloadRoute (Some "docs") (Some "readme.txt") w0).1 = Ret BlobNotFound /\
    (BlobGetEndpoint_handle platform (post (get_body "docs" "readme.txt")) w0).1
      = Ret BlobNotFound.
Proof.
  destruct (empty_upload_rejected platform (upload "docs" "readme.txt" None []) w0
              eq_refl) as (message & Hrun & Hmessage & Hnext).
  exists message. split; [exact Hrun |]. split; [exact (Hmessage eq_refl) |].
  destruct (Hnext "docs" "readme.txt" eq_refl eq_refl ltac:(discriminate)
              ltac:(discriminate) eq_refl (calm_w0 1)) as [Hdown Hget].
  split; [exact Hdown |]. exact (Hget (post (get_body "docs" "readme.txt")) eq_refl).
Defined.



(** C5, as stated, fails: the metadata key of ("a", "b") is the storage
    key of ("__BLOB", "a:b"), and after the two uploads the same string
    names a record of the metadata store and an object of the private
    bucket. *)
Lemma metadata_key_is_a_storage_key :
  kvKey "a" "b" = r2Key "__BLOB" "a:b" /\
  let w1 := after (BlobUploadEndpoint_handle platform (upload "a" "b" None hello)) w0 in
  let w2 :=
    after (BlobUploadEndpoint_handle platform (upload "__BLOB" "a:b" None hello)) w1 in
  is_Some (kv w2 !! kvKey "a" "b") /\
  r2 w2 !! r2Key "__BLOB" "a:b"
    = Some {| body := hello; httpMetadata_contentType := "text/plain" |}.
Proof. split; [reflexivity |]. vm_compute. split; [by eexists | reflexivity]. Qed.

Lemma key_codec_witness :
  (exists rest, "__BLOB" = "__BLOB" +:+ rest) /\
  (exists new,
     trace (BlobGetEndpoint_handle platform (post (get_body "docs" "k")) w0).2
       = trace w0 ++ new /\
     Forall (addresses "docs" "k") new) /\
  (exists new,
     trace (BlobPresignUploadEndpoint_handle platform
              (post (presign_body "docs" "k" 5 true)) w0).2 = trace w0 ++ new /\
     Forall (addresses "docs" "k") new).
Proof.
  destruct (key_codec platform) as (_ & Hreserved & _ & _ & Hget & Hpresign).
  split; [| split].
  - exact (Hreserved "a" "b" "__BLOB" "a:b" eq_refl).
  - exact (Hget (post (get_body "docs" "k")) w0 "docs" "k" eq_refl).
  - exact (Hpresign (post (presign_body "docs" "k" 5 true)) w0
             (presign_body "docs" "k" 5 true)
             (PresignUploadRequest.mk "docs" "k" "text/plain" 5 true) eq_refl eq_refl).
Defined.

(** C6, as stated, fails when the key was uploaded privately before: the
    public upload succeeds and records [isPublic = true], and the private
    bucket still holds an object under that key. *)
Lemma public_reupload_leaves_private_object :
  let w1 := after (BlobUploadEndpoint_handle platform docs_readme) w0 in
  let public :=
    BlobUploadEndpoint_handle platform (upload "docs" "readme.txt" (Some "true") hello) in
  (public w1).1
    = Ret (c_json (UploadBody (BlobMetadata.mk "readme.txt" "docs" 5 "text/plain"
                                 "1700000000001" true)) 200) /\
  r2_public (after public w1) !! r2Key "docs" "readme.txt"
    = Some {| body := hello; httpMetadata_contentType := "text/plain" |} /\
  r2 (after public w1) !! r2Key "docs" "readme.txt"
    = Some {| body := hello; httpMetadata_contentType := "text/plain" |}.
Proof. vm_compute. repeat split. Qed.

Lemma visibility_selects_store_witness :
  (exists metadata w1 response w2,
     let req := upload "docs" "readme.txt" (Some "true") hello in
     BlobUploadEndpoint_handle platform req w0
       = (Ret (c_json (UploadBody metadata) 200), w1) /\
     BlobMetadata.isPublic metadata = true /\
     objects R2_PUBLIC w1 !! r2Key "docs" "readme.txt"
       = Some {| body := hello; httpMetadata_contentType := "text/plain" |} /\
     objects R2 w1 = objects R2 w0 /\
     registerBlobDownloadRoute (Some "docs") (Some "readme.txt") w1 = (Ret response, w2) /\
     trace w2 = trace w1 ++
       [ succeeded (KV_get (kvKey "docs" "readme.txt"));
         succeeded (R2_get R2_PUBLIC (r2Key "docs" "readme.txt")) ]) /\
  (let w1 :=
     after (BlobPresignUploadEndpoint_handle platform
              (post (presign_body "docs" "k" 5 true))) w0 in
   trace (registerBlobDownloadRoute (Some "docs") (Some "k") w1).2 = trace w1 ++
     [ succeeded (KV_get (kvKey "docs" "k"));
       succeeded (R2_get R2_PUBLIC (r2Key "docs" "k")) ]).
Proof.
  destruct (visibility_selects_store platform) as (Hupload & Hdownload & _).
  split.
  - exact (Hupload (upload "docs" "readme.txt" (Some "true") hello) w0
             "docs" "readme.txt" eq_refl eq_refl ltac:(discriminate)
             ltac:(discriminate) ltac:(discriminate) (calm_w0 4)).
  - exact (Hdownload "docs" "k"
             (after (BlobPresignUploadEndpoint_handle platform
                       (post (presign_body "docs" "k" 5 true))) w0)
             (JSON_stringify
                (BlobMetadata.mk "k" "docs" 5 "text/plain" "1700000000001" true))
             (BlobMetadata.to_object
                (BlobMetadata.mk "k" "docs" 5 "text/plain" "1700000000001" true))
             ltac:(discriminate) ltac:(discriminate) eq_refl eq_refl (calm_w0 2)).
Defined.

(** C7 at the namespace docs and the empty key.  The direct upload answers
    400 before it touches a store.  The presigned upload, whose schema
    declares the key as a bare string, does not: with signing credentials
    configured it answers 200, has an upload to the storage key "docs:"
    signed and writes a metadata record under "__BLOB:docs:".  Without
    credentials its answer is 503. *)
Lemma presign_accepts_empty_key :
  let presign :=
    BlobPresignUploadEndpoint_handle platform (post (presign_body "docs" "" 5 true)) in
  BlobUploadEndpoint_handle platform (upload "docs" "" None hello) w0
    = (Ret (c_json (ErrorBody 400 "Missing x-blob-namespace or x-blob-key header") 400),
       w0) /\
  (exists uploadUrl expiresAt,
     (presign w0).1 = Ret (c_json (PresignBody uploadUrl expiresAt) 200)) /\
  (exists client command text,
     trace (after presign w0)
       = [ succeeded (Sign client command 3600);
           succeeded (KV_put "__BLOB:docs:" text) ] /\
     Key command = "docs:") /\
  kv (after presign w0) !! kvKey "docs" ""
    = Some (JSON_stringify
              (BlobMetadata.mk "" "docs" 5 "text/plain" "1700000000001" true)) /\
  (presign w_unsigned).1
    = Ret (c_json (ErrorBody 503 "R2 credentials not configured for presigned URLs")
             503).
Proof.
  cbv zeta. split; [reflexivity |].
  split; [vm_compute; by eexists _, _ |].
  split; [eexists _, _, _; split; reflexivity |].
  split; [by vm_compute | reflexivity].
Qed.

(** C8, as stated, fails without signing credentials: a request with size
    zero is answered 503, not 400. *)
Lemma presign_size_zero_unconfigured :
  (BlobPresignUploadEndpoint_handle platform (post (presign_body "docs" "k" 0 true))
     w_unsigned).1
  = Ret (c_json (ErrorBody 503 "R2 credentials not configured for presigned URLs") 503).
Proof. reflexivity. Qed.

Lemma presign_rejects_bad_size_witness :
  BlobPresignUploadEndpoint_handle platform (post (presign_body "docs" "k" 0 true)) w0
    = (Ret (c_json (ErrorBody 400 "Invalid request body") 400), w0) /\
  BlobPresignUploadEndpoint_handle platform (post (presign_body "docs" "k" (5 # 2) true))
    w0
    = (Ret (c_json (ErrorBody 400 "Invalid request body") 400), w0).
Proof.
  split.
  - apply (presign_rejects_bad_size platform (post (presign_body "docs" "k" 0 true)) w0
             [ ("namespace", JStr "docs"); ("key", JStr "k");
               ("contentType", JStr "text/plain"); ("size", JNum 0);
               ("isPublic", JBool true) ] 0 eq_refl eq_refl eq_refl).
    left. discriminate.
  - apply (presign_rejects_bad_size platform
             (post (presign_body "docs" "k" (5 # 2) true)) w0
             [ ("namespace", JStr "docs"); ("key", JStr "k");
               ("contentType", JStr "text/plain"); ("size", JNum (5 # 2));
               ("isPublic", JBool true) ] (5 # 2) eq_refl eq_refl eq_refl).
    right. reflexivity.
Defined.

Lemma presign_unconfigured_witness :
  exists w',
    BlobPresignUploadEndpoint_handle platform (post (presign_body "docs" "k" 5 true))
      w_unsigned
      = (Ret (c_json (ErrorBody 503 "R2 credentials not configured for presigned URLs")
                503), w') /\
    kv w' = kv w_unsigned /\ trace w' = trace w_unsigned /\ w' = w_unsigned.
Proof.
  exact (presign_unconfigured platform (post (presign_body "docs" "k" 5 true))
           w_unsigned eq_refl).
Defined.

(** C10 on a body that is not JSON, without credentials. *)
Lemma presign_checks_credentials_first_witness :
  let req := {| url := "https://gateway.example"; req_json := None |} in
  (BlobPresignUploadEndpoint_handle platform req w_unsigned).1
    = Ret (c_json (ErrorBody 503 "R2 credentials not configured for presigned URLs")
             503) /\
  (BlobPresignUploadEndpoint_handle platform req w0).1 = Throw SyntaxError.
Proof.
  intros req. split.
  - exact (proj1 (presign_checks_credentials_first platform req w_unsigned _ _
                    (surjective_pairing _)) eq_refl).
  - exact (proj2 (proj2 (proj2 (presign_checks_credentials_first platform req w0 _ _
                                  (surjective_pairing _)))) eq_refl eq_refl).
Defined.

End Examples.


(* ===================================================================== *)
(** * Further properties of the handlers *)
(* ===================================================================== *)

(** ** Retrieval only reads *)

(** X1.  The download route only reads: in every run, whatever fails, the
    two buckets and the metadata store hold afterwards what they held
    before, and each of its interactions is a read, of which there are at
    most two. *)
Theorem download_only_reads (namespace key : option string) (w : World) :
  same_stores w (registerBlobDownloadRoute namespace key w).2 /\
  exists new,
    trace (registerBlobDownloadRoute namespace key w).2 = trace w ++ new /\
    Forall (fun e => is_read e = true) new /\ (length new <= 2)%nat.
Proof.
  pose proof (download_run namespace key w) as H.
  guards H; rewrite H; (split; [done |]); cbn [snd trace log].
  all: first [ exists []; split;
               [by rewrite app_nil_r | split; [by repeat constructor | simpl; lia]]
             | eexists [_]; split; [done | split; [by repeat constructor | simpl; lia]]
             | eexists [_; _]; split;
               [by rewrite <- app_assoc | split; [by repeat constructor | simpl; lia]] ].
Qed.

(** X2.  Get-reference reads the metadata store and nothing else: in every
    run the stores are unchanged and there is at most one interaction, a
    read of the metadata store; and its answer is the same whatever the
    buckets hold, so it hands out a download URL also for a record with no
    object behind it. *)
Theorem get_reference_reads_metadata_only (P : Platform) (req : JsonRequest) (w : World) :
  same_stores w (BlobGetEndpoint_handle P req w).2 /\
  (exists new,
     trace (BlobGetEndpoint_handle P req w).2 = trace w ++ new /\
     Forall (fun e => is_KV_get e = true) new /\ (length new <= 1)%nat) /\
  (forall bucket contents,
     (BlobGetEndpoint_handle P req (set_objects bucket contents w)).1
     = (BlobGetEndpoint_handle P req w).1).
Proof.
  split; [| split].
  - pose proof (get_run P req w) as H. guards H; by rewrite H.
  - pose proof (get_run P req w) as H.
    guards H; rewrite H; cbn [snd trace log];
      first [ exists []; split; [by rewrite app_nil_r | split; [by repeat constructor | simpl; lia]]
            | eexists [_]; split; [done | split; [by repeat constructor | simpl; lia]] ].
  - intros bucket contents.
    pose proof (get_run P req w) as H.
    pose proof (get_run P req (set_objects bucket contents w)) as H'.
    cbv zeta in H, H'. cbn [kv trace outage set_objects] in H'.
    destruct (req_json req ≫= BlobGetRequest P) as [[namespace key]|];
      [| by rewrite H, H'].
    destruct (outage w (length (trace w))); [by rewrite H, H' |].
    destruct (falsy (kv w !! _)); [by rewrite H, H' |].
    destruct (JSON.parse _); by rewrite H, H'.
Qed.

(** X3.  Metadata is the authority on existence: when the metadata store
    has no record (or an empty one) for the pair, the download answers 404
    "Blob not found" after the one read of the metadata store and does not
    look into a bucket, whatever the buckets hold. *)
Theorem download_requires_metadata (namespace key : string) (w : World) :
  namespace <> EmptyString -> key <> EmptyString ->
  falsy (kv w !! kvKey namespace key) = true ->
  calm w 1 ->
  registerBlobDownloadRoute (Some namespace) (Some key) w
    = (Ret BlobNotFound, log (succeeded (KV_get (kvKey namespace key))) w).
Proof. apply download_no_metadata. Qed.

(** ** What the writers leave alone *)

Lemma objects_set_objects_lookup b b' k k' o w :
  k <> k' ->
  objects b (set_objects b' (<[k' := o]> (objects b' w)) w) !! k = objects b w !! k.
Proof.
  intros Hne. destruct b, b'; simpl; try done; by apply lookup_insert_ne.
Qed.

(** The frame of a direct upload, shared by the properties below. *)
Lemma upload_frame_run (P : Platform) (req : UploadRequest) (w : World) :
  let namespace := narrowed (x_blob_namespace req) in
  let key := narrowed (x_blob_key req) in
  let isPublic := strict_eq (x_blob_public req) "true" in
  let w' := (BlobUploadEndpoint_handle P req w).2 in
  objects (other_bucket isPublic) w' = objects (other_bucket isPublic) w /\
  (forall bucket k, k <> r2Key namespace key -> objects bucket w' !! k = objects bucket w !! k) /\
  (forall k, k <> kvKey namespace key -> kv w' !! k = kv w !! k) /\
  outage w' = outage w.
Proof.
  cbv zeta. pose proof (upload_run P req w) as H.
  guards H; rewrite H; cbn [snd]; repeat split; try done.
  all: rewrite ?objects_log, ?objects_set_kv, ?objects_tick, ?objects_log.
  all: try apply objects_set_objects_other.
  all: try (intros bucket k Hk; rewrite ?objects_log, ?objects_set_kv, ?objects_tick,
              ?objects_log; by apply objects_set_objects_lookup).
  intros k Hk. simpl. by apply lookup_insert_ne.
Qed.

(** X4.  A direct upload touches one storage key of one bucket and one
    metadata key: in every run, whatever the request and whatever fails,
    the bucket the flag does not select is unchanged, every other storage
    key of either bucket holds what it held, every other metadata key holds
    what it held, and the signing variables are as they were. *)
Theorem upload_frame (P : Platform) (req : UploadRequest) (w : World) :
  let namespace := narrowed (x_blob_namespace req) in
  let key := narrowed (x_blob_key req) in
  let isPublic := strict_eq (x_blob_public req) "true" in
  let w' := (BlobUploadEndpoint_handle P req w).2 in
  objects (other_bucket isPublic) w' = objects (other_bucket isPublic) w /\
  (forall bucket k, k <> r2Key namespace key -> objects bucket w' !! k = objects bucket w !! k) /\
  (forall k, k <> kvKey namespace key -> kv w' !! k = kv w !! k) /\
  signing_configured w' = signing_configured w.
Proof.
  cbv zeta. destruct (upload_frame_run P req w) as (H1 & H2 & H3 & _).
  repeat split; try done.
  pose proof (upload_run P req w) as H. guards H; by rewrite H.
Qed.

(** The frame of a presigned upload, shared by the properties below. *)
Lemma presign_frame_run (P : Platform) (req : JsonRequest) (w : World) :
  let w' := (BlobPresignUploadEndpoint_handle P req w).2 in
  r2 w' = r2 w /\ r2_public w' = r2_public w /\ outage w' = outage w /\
  (kv w' = kv w \/
   exists parsed text,
     req_json req ≫= PresignUploadRequest.safeParse P = Some parsed /\
     JSON.parse text
       = Some (BlobMetadata.to_object
                 (BlobMetadata.mk (PresignUploadRequest.key parsed)
                    (PresignUploadRequest.namespace parsed)
                    (PresignUploadRequest.size parsed)
                    (PresignUploadRequest.contentType parsed)
                    (toISOString P (clock w (S (clock_reads w))))
                    (PresignUploadRequest.isPublic parsed))) /\
     kv w' = <[kvKey (PresignUploadRequest.namespace parsed)
                 (PresignUploadRequest.key parsed) := text]> (kv w)).
Proof.
  cbv zeta. pose proof (presign_run P req w) as H.
  guards H; rewrite H; cbn [snd]; repeat split; try done; try by left.
  right. eexists _, _. split; [simpl; eassumption |]. split; [| done].
  apply parse_JSON_stringify.
Qed.

(** X5.  A presigned upload never touches a bucket: in every run both
    buckets are unchanged, and the metadata store is either unchanged or
    differs in the one record written under the metadata key of the
    request's namespace and key. *)
Theorem presign_frame (P : Platform) (req : JsonRequest) (w : World) :
  let w' := (BlobPresignUploadEndpoint_handle P req w).2 in
  r2 w' = r2 w /\ r2_public w' = r2_public w /\
  (kv w' = kv w \/
   exists parsed text,
     req_json req ≫= PresignUploadRequest.safeParse P = Some parsed /\
     kv w' = <[kvKey (PresignUploadRequest.namespace parsed)
                 (PresignUploadRequest.key parsed) := text]> (kv w)).
Proof.
  cbv zeta. destruct (presign_frame_run P req w) as (H1 & H2 & _ & [H3 | H3]).
  - by repeat split; try left.
  - destruct H3 as (parsed & text & Hp & _ & Hkv).
    repeat split; try done. right. by exists parsed, text.
Qed.

(** X6.  The failure bias of the direct upload: when the object write
    succeeds and the metadata write fails, the handler throws, the object
    is in the selected bucket under the storage key with the uploaded bytes,
    and the metadata store is unchanged; if it held no record for the pair,
    a download that follows answers 404 "Blob not found" although the bytes
    are stored. *)
Theorem upload_metadata_failure_orphans_object (P : Platform) (req : UploadRequest)
    (w : World) (namespace key : string) :
  x_blob_namespace req = Some namespace -> x_blob_key req = Some key ->
  namespace <> EmptyString -> key <> EmptyString ->
  arrayBuffer req <> [] ->
  outage w (length (trace w)) = false ->
  outage w (S (length (trace w))) = true ->
  let isPublic := strict_eq (x_blob_public req) "true" in
  let w' := (BlobUploadEndpoint_handle P req w).2 in
  (exists text,
     (BlobUploadEndpoint_handle P req w).1
     = Throw (IOError (KV_put (kvKey namespace key) text))) /\
  body <$> objects (select_bucket isPublic) w' !! r2Key namespace key
    = Some (arrayBuffer req) /\
  kv w' = kv w /\
  (kv w !! kvKey namespace key = None -> calm w' 1 ->
   (registerBlobDownloadRoute (Some namespace) (Some key) w').1 = Ret BlobNotFound).
Proof.
  intros Hns Hkey Hns' Hkey' Hbody Hput Hkv. cbv zeta.
  pose proof (upload_run P req w) as H. cbv zeta in H.
  rewrite Hns, Hkey, (falsy_Some _ Hns'), (falsy_Some _ Hkey'), Hput, Hkv in H.
  cbn [orb narrowed default id] in H. unfold id in H.
  replace (Z.of_nat (length (arrayBuffer req)) =? 0) with false in H
    by (symmetry; apply Z.eqb_neq; destruct (arrayBuffer req); simpl; [done | lia]).
  rewrite H. cbn [fst snd]. split; [by eexists |]. split; [| split; [done |]].
  - rewrite objects_log, objects_tick, objects_log, objects_set_objects.
    by rewrite lookup_insert_eq.
  - intros Hnone Hcalm.
    rewrite (download_no_metadata _ namespace key Hns' Hkey'); [done | | done].
    cbn [kv log tick set_objects]. by rewrite Hnone.
Qed.

(** ** The request schema of the presigned upload *)

Lemma Number_isInteger_value q :
  PresignUploadRequest.Number_isInteger q = true ->
  (q == inject_Z (Qnum q / Z.pos (Qden q)))%Q.
Proof.
  unfold PresignUploadRequest.Number_isInteger. intros H. apply Z.eqb_eq in H.
  unfold Qeq. simpl. rewrite Z.mul_1_r.
  rewrite (Z.div_mod (Qnum q) (Z.pos (Qden q))) at 1 by done.
  rewrite H. lia.
Qed.

(** X7.  What the request schema of the presigned upload accepts: only an
    object; its key and content type are the strings of the body, unchanged
    (an empty key included); its size is a number of the body that is an
    integer and at least 1, taken exactly; its flag is the boolean of the
    body, or false when the member is absent. *)
Theorem presign_schema_accepts (P : Platform) (body : json)
    (parsed : PresignUploadRequest.data) :
  PresignUploadRequest.safeParse P body = Some parsed ->
  exists members size,
    body = JObj members /\
    NamespaceValue P (json_member "namespace" members)
      = Some (PresignUploadRequest.namespace parsed) /\
    json_member "key" members = Some (JStr (PresignUploadRequest.key parsed)) /\
    json_member "contentType" members
      = Some (JStr (PresignUploadRequest.contentType parsed)) /\
    json_member "size" members = Some (JNum size) /\
    (size == inject_Z (PresignUploadRequest.size parsed))%Q /\
    1 <= PresignUploadRequest.size parsed /\
    (json_member "isPublic" members
       = Some (JBool (PresignUploadRequest.isPublic parsed)) \/
     json_member "isPublic" members = None /\
     PresignUploadRequest.isPublic parsed = false).
Proof.
  intros H. destruct body as [| | | | |members]; try discriminate H.
  simpl in H.
  destruct (NamespaceValue P _) as [namespace|] eqn:Hns; [| discriminate H].
  destruct (json_member "key" members) as [[| | |key| |]|] eqn:Hkey; try discriminate H.
  destruct (json_member "contentType" members) as [[| | |ct| |]|] eqn:Hct;
    try discriminate H.
  destruct (json_member "size" members) as [[| |q| | |]|] eqn:Hsize; try discriminate H.
  simpl in H.
  destruct (PresignUploadRequest.Number_isInteger q) eqn:Hint; [| discriminate H].
  destruct (0 <? Qnum q) eqn:Hpos; [| discriminate H]. simpl in H.
  apply Z.ltb_lt in Hpos.
  assert (1 <= Qnum q / Z.pos (Qden q)) as Hone.
  { pose proof (Number_isInteger_value q Hint) as Hq. unfold Qeq in Hq. simpl in Hq.
    assert (0 < Qnum q / Z.pos (Qden q)); [| lia]. nia. }
  destruct (json_member "isPublic" members) as [[|b| | | |]|] eqn:Hpub;
    try discriminate H; simpl in H; injection H as <-; simpl;
    exists members, q; repeat split; try done; try by apply Number_isInteger_value.
  - by left.
  - by right.
Qed.

(** ** What the writers write *)

(** X8.  Every record a writer puts into the metadata store is well formed:
    in every run of the direct upload and of the presigned upload, a write
    to the metadata store carries the JSON text of a record that is stored
    under the metadata key of its own namespace and key, that [JSON.parse]
    reads back field for field, and whose size is at least 1; the direct
    upload moreover records the length of the payload, a non-empty content
    type and non-empty identifiers. *)
Theorem metadata_writes_well_formed (P : Platform) :
  (forall req w k v b,
     {| op := KV_put k v; ok := b |} ∈ trace (BlobUploadEndpoint_handle P req w).2 ->
     {| op := KV_put k v; ok := b |} ∈ trace w \/
     exists m,
       v = JSON_stringify m /\
       JSON.parse v = Some (BlobMetadata.to_object m) /\
       k = kvKey (BlobMetadata.namespace m) (BlobMetadata.key m) /\
       1 <= BlobMetadata.size m /\
       BlobMetadata.size m = Z.of_nat (length (arrayBuffer req)) /\
       BlobMetadata.contentType m <> EmptyString /\
       BlobMetadata.namespace m <> EmptyString /\ BlobMetadata.key m <> EmptyString) /\
  (forall req w k v b,
     {| op := KV_put k v; ok := b |} ∈ trace (BlobPresignUploadEndpoint_handle P req w).2 ->
     {| op := KV_put k v; ok := b |} ∈ trace w \/
     exists m,
       v = JSON_stringify m /\
       JSON.parse v = Some (BlobMetadata.to_object m) /\
       k = kvKey (BlobMetadata.namespace m) (BlobMetadata.key m) /\
       1 <= BlobMetadata.size m).
Proof.
  split.
  - intros req w k v b Hin. pose proof (upload_run P req w) as H. cbv zeta in H.
    destruct (falsy (x_blob_namespace req) || falsy (x_blob_key req)) eqn:Hids;
      [rewrite H in Hin; by left |].
    destruct (Z.of_nat (length (arrayBuffer req)) =? 0) eqn:Hsize;
      [rewrite H in Hin; by left |].
    apply Z.eqb_neq in Hsize. apply orb_false_elim in Hids as [Hns Hkey].
    assert (narrowed (x_blob_namespace req) <> EmptyString) as Hns'.
    { by destruct (x_blob_namespace req) as [[]|]. }
    assert (narrowed (x_blob_key req) <> EmptyString) as Hkey'.
    { by destruct (x_blob_key req) as [[]|]. }
    destruct (outage w (length (trace w)));
      [| destruct (outage w (S (length (trace w))))];
      rewrite H in Hin; cbn [snd trace log set_kv tick set_objects] in Hin;
      rewrite ?elem_of_app, ?list_elem_of_singleton in Hin.
    + destruct Hin as [Hin | Hin]; [by left | done].
    + destruct Hin as [[Hin | Hin] | Hin]; [by left | done |].
      right. injection Hin as -> -> ->. eexists. split; [done |].
      split; [apply parse_JSON_stringify |]. repeat split; try done.
      * simpl. lia.
      * by apply or_else_nonempty.
    + destruct Hin as [[Hin | Hin] | Hin]; [by left | done |].
      right. injection Hin as -> -> ->. eexists. split; [done |].
      split; [apply parse_JSON_stringify |]. repeat split; try done.
      * simpl. lia.
      * by apply or_else_nonempty.
  - intros req w k v b Hin. pose proof (presign_run P req w) as H. cbv zeta in H.
    destruct (negb (signing_configured w)); [rewrite H in Hin; by left |].
    destruct (req_json req) as [body|]; [| rewrite H in Hin; by left].
    destruct (PresignUploadRequest.safeParse P body) as [parsed|] eqn:Hparsed;
      [| rewrite H in Hin; by left].
    assert (1 <= PresignUploadRequest.size parsed) as Hsize.
    { unfold PresignUploadRequest.safeParse in Hparsed.
      destruct body as [| | | | |members]; try discriminate Hparsed.
      destruct (NamespaceValue P _); [| discriminate Hparsed]. simpl in Hparsed.
      destruct (PresignUploadRequest.z_string (json_member "key" members));
        [| discriminate Hparsed]. simpl in Hparsed.
      destruct (PresignUploadRequest.z_string (json_member "contentType" members));
        [| discriminate Hparsed]. simpl in Hparsed.
      destruct (PresignUploadRequest.z_number_int_positive _) as [z|] eqn:Hz;
        [| discriminate Hparsed]. simpl in Hparsed.
      destruct (PresignUploadRequest.z_boolean_default _ _); [| discriminate Hparsed].
      injection Hparsed as <-. simpl.
      unfold PresignUploadRequest.z_number_int_positive in Hz.
      destruct (json_member "size" members) as [[| |q| | |]|]; try discriminate Hz.
      destruct (PresignUploadRequest.Number_isInteger q) eqn:Hint; [| discriminate Hz].
      destruct (0 <? Qnum q) eqn:Hpos; [| discriminate Hz].
      injection Hz as <-. apply Z.ltb_lt in Hpos.
      pose proof (Number_isInteger_value q Hint) as Hq. unfold Qeq in Hq. simpl in Hq.
      assert (0 < Qnum q / Z.pos (Qden q)); [nia | lia]. }
    destruct (outage w (length (trace w)));
      [| destruct (outage w (S (length (trace w))))];
      rewrite H in Hin; cbn [snd trace log set_kv tick] in Hin;
      rewrite ?elem_of_app, ?list_elem_of_singleton in Hin.
    + destruct Hin as [Hin | Hin]; [by left | done].
    + destruct Hin as [[Hin | Hin] | Hin]; [by left | done |].
      right. injection Hin as -> -> ->. eexists. split; [done |].
      split; [apply parse_JSON_stringify |]. by split.
    + destruct Hin as [[Hin | Hin] | Hin]; [by left | done |].
      right. injection Hin as -> -> ->. eexists. split; [done |].
      split; [apply parse_JSON_stringify |]. by split.
Qed.

(** ** Invariants of the stores *)

Lemma kvKey_r2Key_eq namespace key namespace' key' :
  kvKey namespace key = kvKey namespace' key' <-> r2Key namespace key = r2Key namespace' key'.
Proof.
  unfold kvKey, r2Key. split; intros H.
  - by injection H.
  - simpl. by rewrite H.
Qed.

Lemma parsable_insert w w' k m :
  parsable w -> kv w' = <[k := JSON_stringify m]> (kv w) -> parsable w'.
Proof.
  intros Hw Hkv k' text Hget. rewrite Hkv in Hget.
  destruct (decide (k = k')) as [<- | Hne].
  - rewrite lookup_insert_eq in Hget. injection Hget as <-.
    rewrite parse_JSON_stringify. by eexists.
  - rewrite lookup_insert_ne in Hget by done. by apply (Hw k').
Qed.

Lemma parsable_same w w' : parsable w -> kv w' = kv w -> parsable w'.
Proof. intros Hw Hkv k text. rewrite Hkv. apply Hw. Qed.

Lemma upload_keeps_parsable (P : Platform) req w :
  parsable w -> parsable (BlobUploadEndpoint_handle P req w).2.
Proof.
  intros Hw. pose proof (upload_run P req w) as H.
  guards H; rewrite H; cbn [snd];
    first [ by apply (parsable_same w) | by eapply (parsable_insert w) ].
Qed.

(** X9.  The metadata store stays readable: if every record of the
    metadata store is a text [JSON.parse] accepts, the same holds after any
    run of any of the four handlers, whatever the request and whatever
    fails. *)
Theorem parsable_preserved (P : Platform) (w : World) :
  parsable w ->
  (forall req, parsable (BlobUploadEndpoint_handle P req w).2) /\
  (forall req, parsable (BlobPresignUploadEndpoint_handle P req w).2) /\
  (forall namespace key, parsable (registerBlobDownloadRoute namespace key w).2) /\
  (forall req, parsable (BlobGetEndpoint_handle P req w).2).
Proof.
  intros Hw. split; [| split; [| split]].
  - intros req. by apply upload_keeps_parsable.
  - intros req. pose proof (presign_run P req w) as H.
    guards H; rewrite H; cbn [snd];
      first [ by apply (parsable_same w) | by eapply (parsable_insert w) ].
  - intros namespace key. pose proof (download_run namespace key w) as H.
    guards H; rewrite H; by apply (parsable_same w).
  - intros req. pose proof (get_run P req w) as H.
    guards H; rewrite H; by apply (parsable_same w).
Qed.

(** X10.  On a readable metadata store the readers never fail to parse:
    neither the download route nor get-reference throws a syntax error. *)
Theorem parsable_readers_parse (P : Platform) (w : World) :
  parsable w ->
  (forall namespace key,
     (registerBlobDownloadRoute namespace key w).1 <> Throw SyntaxError) /\
  (forall req, (BlobGetEndpoint_handle P req w).1 <> Throw SyntaxError).
Proof.
  intros Hw. split.
  - intros namespace key. pose proof (download_run namespace key w) as H. cbv zeta in H.
    destruct (falsy namespace || falsy key); [by rewrite H |].
    destruct (outage w (length (trace w))); [by rewrite H |].
    destruct (kv w !! _) as [text|] eqn:Hkv; [| by rewrite H].
    destruct (falsy (Some text)); [by rewrite H |].
    destruct (Hw _ _ Hkv) as [o Ho]. cbn [narrowed default] in H. unfold id in H.
    rewrite Ho in H.
    destruct (outage w (S (length (trace w)))); [by rewrite H |].
    destruct (objects _ w !! _); by rewrite H.
  - intros req. pose proof (get_run P req w) as H. cbv zeta in H.
    destruct (req_json req ≫= BlobGetRequest P) as [[namespace key]|]; [| by rewrite H].
    destruct (outage w (length (trace w))); [by rewrite H |].
    destruct (kv w !! _) as [text|] eqn:Hkv; [| by rewrite H].
    destruct (falsy (Some text)); [by rewrite H |].
    destruct (Hw _ _ Hkv) as [o Ho]. cbn [narrowed default] in H. unfold id in H.
    rewrite Ho in H. by rewrite H.
Qed.

Lemma backed_same w w' :
  backed w -> kv w' = kv w ->
  (forall b k, is_Some (objects b w !! k) -> is_Some (objects b w' !! k)) ->
  backed w'.
Proof.
  intros Hw Hkv Hobj namespace key text metadata Hget Hparse.
  rewrite Hkv in Hget. apply Hobj. by apply (Hw _ _ text).
Qed.

Lemma is_Some_insert_objects b b' k k' o w :
  is_Some (objects b w !! k) ->
  is_Some (objects b (set_objects b' (<[k' := o]> (objects b' w)) w) !! k).
Proof.
  intros H. destruct b, b'; simpl; try done;
    (destruct (decide (k' = k)) as [-> | Hne];
     [rewrite lookup_insert_eq; by eexists | by rewrite lookup_insert_ne]).
Qed.

Lemma upload_keeps_backed (P : Platform) req w :
  backed w -> backed (BlobUploadEndpoint_handle P req w).2.
Proof.
  intros Hw. pose proof (upload_run P req w) as H. cbv zeta in H.
  destruct (falsy (x_blob_namespace req) || falsy (x_blob_key req)); [by rewrite H |].
  destruct (Z.of_nat (length (arrayBuffer req)) =? 0); [by rewrite H |].
  destruct (outage w (length (trace w))).
  { rewrite H. cbn [snd]. apply (backed_same w); [done | done |].
    intros b k. by rewrite objects_log. }
  destruct (outage w (S (length (trace w)))).
  { rewrite H. cbn [snd]. apply (backed_same w); [done | done |].
    intros b k Hk. rewrite objects_log, objects_tick, objects_log.
    by apply is_Some_insert_objects. }
  rewrite H. cbn [snd]. intros namespace key text metadata Hget Hparse.
  rewrite objects_log, objects_set_kv, objects_tick, objects_log.
  cbn [kv log set_kv] in Hget.
  destruct (decide (kvKey (narrowed (x_blob_namespace req)) (narrowed (x_blob_key req))
                    = kvKey namespace key)) as [Heq | Hne].
  - rewrite Heq, lookup_insert_eq in Hget. injection Hget as <-.
    rewrite parse_JSON_stringify in Hparse. injection Hparse as <-.
    apply kvKey_r2Key_eq in Heq. rewrite <- Heq.
    cbn [BlobMetadata.to_object JSON.get JSON.truthy String.eqb Ascii.eqb Bool.eqb
         BlobMetadata.isPublic].
    rewrite objects_set_objects, lookup_insert_eq. by eexists.
  - rewrite lookup_insert_ne in Hget by done.
    apply is_Some_insert_objects. by apply (Hw _ _ text).
Qed.

(** X11.  A direct upload never leaves a record without bytes: if every
    record of the metadata store has an object behind it in the bucket it
    selects, the same holds after any run of the direct upload, whatever the
    request and whatever fails, and after any run of the two readers. *)
Theorem backed_preserved (P : Platform) (w : World) :
  backed w ->
  (forall req, backed (BlobUploadEndpoint_handle P req w).2) /\
  (forall namespace key, backed (registerBlobDownloadRoute namespace key w).2) /\
  (forall req, backed (BlobGetEndpoint_handle P req w).2).
Proof.
  intros Hw. split; [| split].
  - intros req. by apply upload_keeps_backed.
  - intros namespace key. pose proof (download_run namespace key w) as H.
    guards H; rewrite H; cbn [snd]; (apply (backed_same w); [done | done |]);
      intros b k; by rewrite ?objects_log.
  - intros req. pose proof (get_run P req w) as H.
    guards H; rewrite H; cbn [snd]; (apply (backed_same w); [done | done |]);
      intros b k; by rewrite ?objects_log.
Qed.

(** The lookup of the download route finds the object of a backed record. *)
Lemma download_of_backed (namespace key : option string) (w : World) :
  backed w ->
  (registerBlobDownloadRoute namespace key w).1 <> Ret ObjectNotFound.
Proof.
  intros Hw. pose proof (download_run namespace key w) as H. cbv zeta in H.
  destruct (falsy namespace || falsy key); [by rewrite H |].
  destruct (outage w (length (trace w))); [by rewrite H |].
  destruct (kv w !! _) as [text|] eqn:Hkv; [| by rewrite H].
  destruct (falsy (Some text)); [by rewrite H |].
  cbn [narrowed default] in H. unfold id in H.
  destruct (JSON.parse text) as [metadata|] eqn:Hparse; [| by rewrite H].
  destruct (outage w (S (length (trace w)))); [by rewrite H |].
  destruct (Hw _ _ _ _ Hkv Hparse) as [object Hobject].
  fold (narrowed namespace) (narrowed key) in Hobject. rewrite Hobject in H.
  by rewrite H.
Qed.

Lemma download_keeps_stores namespace key w :
  same_stores w (registerBlobDownloadRoute namespace key w).2.
Proof. pose proof (download_run namespace key w) as H. guards H; by rewrite H. Qed.

Lemma get_keeps_stores (P : Platform) req w :
  same_stores w (BlobGetEndpoint_handle P req w).2.
Proof. pose proof (get_run P req w) as H. guards H; by rewrite H. Qed.

Lemma backed_same_stores w w' : backed w -> same_stores w w' -> backed w'.
Proof.
  intros Hw (Hr2 & Hpub & Hkv). apply (backed_same w); [done | done |].
  intros [] k; simpl; congruence.
Qed.

Lemma served_keeps_invariants (P : Platform) r w :
  is_presigned r = false ->
  parsable w /\ backed w -> parsable (served P r w) /\ backed (served P r w).
Proof.
  intros Hr [Hparsable Hbacked]. destruct r as [req | req | req | namespace key];
    [| discriminate Hr | |]; cbn [served].
  - split; [by apply upload_keeps_parsable | by apply upload_keeps_backed].
  - pose proof (get_keeps_stores P req w) as Hsame. split.
    + apply (parsable_same w); [done | apply Hsame].
    + by apply (backed_same_stores w).
  - pose proof (download_keeps_stores namespace key w) as Hsame. split.
    + apply (parsable_same w); [done | apply Hsame].
    + by apply (backed_same_stores w).
Qed.

Lemma served_all_keeps_invariants (P : Platform) history w :
  Forall (fun r => is_presigned r = false) history ->
  parsable w /\ backed w ->
  parsable (served_all P history w) /\ backed (served_all P history w).
Proof.
  intros Hhistory. revert w.
  induction Hhistory as [| r history Hr _ IH]; intros w Hw; [done |].
  cbn [served_all fold_left]. apply IH. by apply served_keeps_invariants.
Qed.

(** X12.  Only a presigned upload leaves a record without bytes.  From a
    metadata store whose records all parse and all have an object behind
    them, the empty store for one, and after any sequence of direct
    uploads, downloads and get-reference calls, whatever the requests and
    whichever of their interactions fail, the download route never answers
    404 "Blob not found in storage". *)
Theorem backed_download_finds_object (P : Platform) (history : list Request)
    (namespace key : option string) (w : World) :
  parsable w -> backed w ->
  Forall (fun r => is_presigned r = false) history ->
  (registerBlobDownloadRoute namespace key (served_all P history w)).1
  <> Ret ObjectNotFound.
Proof.
  intros Hparsable Hbacked Hhistory. apply download_of_backed.
  by apply served_all_keeps_invariants.
Qed.

(** ** How the operations compose *)

Lemma calm_weaken w n m : (m <= n)%nat -> calm w n -> calm w m.
Proof. intros Hle H i Hi. apply H. lia. Qed.

Lemma calm_after w w' n k :
  calm w (k + n) -> outage w' = outage w -> length (trace w') = (length (trace w) + k)%nat ->
  calm w' n.
Proof.
  intros H Ho Hl i Hi. rewrite Ho, Hl, <- Nat.add_assoc. apply H. lia.
Qed.

(** What the download answers on a record some writer stored. *)
Lemma download_stored_record w namespace key m object :
  namespace <> EmptyString -> key <> EmptyString ->
  kv w !! kvKey namespace key = Some (JSON_stringify m) ->
  objects (select_bucket (BlobMetadata.isPublic m)) w !! r2Key namespace key = Some object ->
  calm w 2 ->
  registerBlobDownloadRoute (Some namespace) (Some key) w
    = (Ret (stream (body object) 200 (download_headers m key)),
       log (succeeded (R2_get (select_bucket (BlobMetadata.isPublic m))
                         (r2Key namespace key)))
         (log (succeeded (KV_get (kvKey namespace key))) w)).
Proof.
  intros Hns Hkey Hkv Hobj Hcalm.
  rewrite (download_reads_object w namespace key _ _ Hns Hkey Hkv
             (parse_JSON_stringify m) Hcalm).
  cbn [BlobMetadata.to_object JSON.get JSON.truthy String.eqb Ascii.eqb Bool.eqb
       JSON.String_].
  rewrite Hobj. unfold download_headers.
  by destruct (BlobMetadata.contentType m).
Qed.

(** X13.  The download declares what the record says, not what the object
    is: for a record stored by a writer, whose content type is a value
    [headers.set] keeps and whose size is a safe integer, and any object in
    the bucket the record selects, the download streams the object's bytes
    with the Content-Length printed from the record's size and the
    Content-Type of the record (the default when the record's is empty),
    whatever the length of the bytes and the content type kept with the
    object. *)
Theorem download_declares_record (w : World) (namespace key : string)
    (m : BlobMetadata.t) (object : R2Object) :
  namespace <> EmptyString -> key <> EmptyString ->
  kv w !! kvKey namespace key = Some (JSON_stringify m) ->
  objects (select_bucket (BlobMetadata.isPublic m)) w !! r2Key namespace key = Some object ->
  header_value (BlobMetadata.contentType m) = true ->
  Number_isSafeInteger (BlobMetadata.size m) = true ->
  calm w 2 ->
  (registerBlobDownloadRoute (Some namespace) (Some key) w).1
    = Ret (stream (body object) 200 (download_headers m key)).
Proof.
  intros Hns Hkey Hkv Hobj _ _ Hcalm. by rewrite (download_stored_record w _ _ m object).
Qed.

(** X14.  A direct upload followed by get-reference: the reference carries
    the record the upload answered with, member for member, and the URL is
    the origin of the request followed by /blob/download/ and the
    percent-encoded namespace and key. *)
Theorem upload_then_get_reference (P : Platform) (req : UploadRequest) (req' : JsonRequest)
    (w : World) (namespace key : string) :
  x_blob_namespace req = Some namespace -> x_blob_key req = Some key ->
  namespace <> EmptyString -> key <> EmptyString ->
  arrayBuffer req <> [] ->
  req_json req' ≫= BlobGetRequest P = Some (namespace, key) ->
  calm w 3 ->
  exists metadata w1,
    BlobUploadEndpoint_handle P req w = (Ret (c_json (UploadBody metadata) 200), w1) /\
    (BlobGetEndpoint_handle P req' w1).1
      = Ret (c_json
               (GetBody (URL_origin P (url req') +:+ "/blob/download/"
                           +:+ encodeURIComponent namespace +:+ "/"
                           +:+ encodeURIComponent key)
                  (BlobMetadata.to_object metadata)) 200).
Proof.
  intros Hns Hkey Hns' Hkey' Hbody Hreq Hcalm.
  pose proof (upload_succeeds P req w namespace key Hns Hkey Hns' Hkey' Hbody
                (calm_weaken w 3 2 ltac:(lia) Hcalm)) as Hup.
  cbv zeta in Hup.
  match type of Hup with
  | _ = (Ret (c_json (UploadBody ?m) 200), ?w') =>
    set (metadata := m) in *; set (w1 := w') in *
  end.
  exists metadata, w1. split; [exact Hup |].
  pose proof (get_run P req' w1) as Hget. cbv zeta in Hget. rewrite Hreq in Hget.
  assert (outage w1 (length (trace w1)) = false) as Hnow.
  { unfold w1. simpl. rewrite !length_app. simpl.
    replace (length (trace w) + 1 + 1)%nat with (length (trace w) + 2)%nat by lia.
    apply Hcalm. lia. }
  rewrite Hnow in Hget.
  assert (kv w1 !! kvKey namespace key = Some (JSON_stringify metadata)) as Hkv
    by apply lookup_insert_eq.
  rewrite Hkv in Hget. cbn [falsy narrowed default] in Hget. unfold id in Hget.
  rewrite (is_empty_false _ (JSON_stringify_nonempty _)), parse_JSON_stringify in Hget.
  by rewrite Hget.
Qed.

(** X15.  What a presigned upload signs: with signing credentials
    configured, a body the schema accepts and the two interactions
    succeeding, the call answers 200 with the URL the signer gives for the
    endpoint of the account and a command for the bucket name the flag
    selects, the storage key, the declared content type and the declared
    size, valid 3600 seconds; the expiry it reports is the first reading of
    the clock plus 3 600 000 milliseconds. *)
Theorem presign_signs_declared_request (P : Platform) (req : JsonRequest) (w : World)
    (body : json) (parsed : PresignUploadRequest.data) :
  signing_configured w = true ->
  req_json req = Some body ->
  PresignUploadRequest.safeParse P body = Some parsed ->
  calm w 2 ->
  let client :=
    {| region := "auto";
       endpoint := "https://" +:+ narrowed (R2_ACCOUNT_ID w) +:+ ".r2.cloudflarestorage.com";
       accessKeyId := narrowed (R2_ACCESS_KEY_ID w);
       secretAccessKey := narrowed (R2_SECRET_ACCESS_KEY w) |} in
  let command :=
    {| Bucket_ := if PresignUploadRequest.isPublic parsed
                  then "federise-objects-public" else "federise-objects";
       Key := r2Key (PresignUploadRequest.namespace parsed) (PresignUploadRequest.key parsed);
       ContentType := PresignUploadRequest.contentType parsed;
       ContentLength := PresignUploadRequest.size parsed |} in
  (BlobPresignUploadEndpoint_handle P req w).1
    = Ret (c_json (PresignBody (getSignedUrl P client command 3600)
                     (toISOString P (clock w (clock_reads w) + 3600000))) 200) /\
  exists rest,
    trace (BlobPresignUploadEndpoint_handle P req w).2
      = trace w ++ succeeded (Sign client command 3600) :: rest.
Proof.
  intros Hcfg Hreq Hparsed Hcalm. cbv zeta.
  pose proof (presign_run P req w) as H. cbv zeta in H.
  rewrite Hcfg, Hreq, Hparsed, (calm_now _ _ Hcalm) in H. cbn [negb] in H.
  rewrite <- Nat.add_1_r in H. rewrite (Hcalm 1%nat ltac:(lia)) in H.
  rewrite H. split; [done |]. eexists [_]. simpl. by rewrite <- app_assoc.
Qed.

(** ** The key codec and the percent encoding *)

Lemma split_at_separator (sep : ascii) (a b a' b' : string) :
  free_of sep a = true -> free_of sep a' = true ->
  a +:+ String sep b = a' +:+ String sep b' -> a = a' /\ b = b'.
Proof.
  revert a'. induction a as [|c a IH]; intros [|c' a'] Ha Ha' H; simpl in *.
  - by injection H.
  - injection H as <- _. by rewrite Ascii.eqb_refl in Ha'.
  - injection H as -> _. by rewrite Ascii.eqb_refl in Ha.
  - injection H as <- H.
    apply andb_true_iff in Ha as [_ Ha]. apply andb_true_iff in Ha' as [_ Ha'].
    destruct (IH a' Ha Ha' H) as [<- <-]. done.
Qed.

(** X16.  The key codec is one-to-one exactly as far as the separator
    allows: on namespaces without a colon, equal storage keys (or equal
    metadata keys) come from equal namespaces and equal keys; with a colon
    in the namespace it is not, since (a:b, c) and (a, b:c) share both keys. *)
Theorem key_codec_injectivity :
  (forall namespace key namespace' key',
     free_of ":" namespace = true -> free_of ":" namespace' = true ->
     r2Key namespace key = r2Key namespace' key' \/
     kvKey namespace key = kvKey namespace' key' ->
     namespace = namespace' /\ key = key') /\
  (forall a b c,
     r2Key (a +:+ ":" +:+ b) c = r2Key a (b +:+ ":" +:+ c) /\
     kvKey (a +:+ ":" +:+ b) c = kvKey a (b +:+ ":" +:+ c)).
Proof.
  split.
  - intros namespace key namespace' key' Hns Hns' [H | H].
    + by apply (split_at_separator ":" namespace key namespace' key').
    + apply kvKey_r2Key_eq in H.
      by apply (split_at_separator ":" namespace key namespace' key').
  - intros a b c. unfold kvKey, r2Key. by rewrite !JSON_facts.string_app_assoc.
Qed.

Lemma all_chars_app p a b : all_chars p (a +:+ b) = all_chars p a && all_chars p b.
Proof.
  induction a as [|c a IH]; [done |].
  change (String c a +:+ b) with (String c (a +:+ b)). simpl.
  by rewrite IH, andb_assoc.
Qed.

Lemma encodeURIComponent_char_safe c :
  all_chars uri_safe (encodeURIComponent_char c) = true.
Proof. destruct c as [[] [] [] [] [] [] [] []]; reflexivity. Qed.

Lemma encodeURIComponent_safe s : all_chars uri_safe (encodeURIComponent s) = true.
Proof.
  induction s as [|c s IH]; [done |].
  cbn [encodeURIComponent]. by rewrite all_chars_app, encodeURIComponent_char_safe, IH.
Qed.

Lemma uri_decode_char c t :
  uri_decode (encodeURIComponent_char c +:+ t) = String c <$> uri_decode t.
Proof. destruct c as [[] [] [] [] [] [] [] []]; reflexivity. Qed.

Lemma uri_decode_encode s : uri_decode (encodeURIComponent s) = Some s.
Proof.
  induction s as [|c s IH]; [done |].
  cbn [encodeURIComponent]. by rewrite uri_decode_char, IH.
Qed.

Lemma encodeURIComponent_inj s s' :
  encodeURIComponent s = encodeURIComponent s' -> s = s'.
Proof.
  intros H. apply (f_equal uri_decode) in H. rewrite !uri_decode_encode in H.
  by injection H.
Qed.

Lemma safe_free_of sep s :
  uri_safe sep = false -> all_chars uri_safe s = true -> free_of sep s = true.
Proof.
  intros Hsep. induction s as [|c s IH]; [done |]. simpl.
  intros H. apply andb_true_iff in H as [Hc Hs]. rewrite (IH Hs), andb_true_r.
  destruct (Ascii.eqb_spec c sep) as [-> | _]; [congruence | done].
Qed.

(** X17.  The percent encoding of the handlers is harmless and loses
    nothing: [encodeURIComponent] emits only unreserved characters and
    percent signs, so its result holds no slash, no double quote and no
    backslash, and different strings have different encodings. *)
Theorem encodeURIComponent_safe_lossless :
  (forall s,
     all_chars uri_safe (encodeURIComponent s) = true /\
     free_of "/" (encodeURIComponent s) = true /\
     free_of JSON.dquote (encodeURIComponent s) = true /\
     free_of JSON.backslash (encodeURIComponent s) = true) /\
  (forall s s', encodeURIComponent s = encodeURIComponent s' -> s = s').
Proof.
  split.
  - intros s. pose proof (encodeURIComponent_safe s) as H.
    repeat split; [done | | |]; by apply safe_free_of.
  - apply encodeURIComponent_inj.
Qed.

(** X18.  The download URL of get-reference is unambiguous, also where the
    storage key is not: for one origin, two references with the same URL
    are references to the same namespace and key. *)
Theorem reference_url_unambiguous (origin namespace key namespace' key' : string) :
  origin +:+ "/blob/download/" +:+ encodeURIComponent namespace +:+ "/"
    +:+ encodeURIComponent key
  = origin +:+ "/blob/download/" +:+ encodeURIComponent namespace' +:+ "/"
      +:+ encodeURIComponent key' ->
  namespace = namespace' /\ key = key'.
Proof.
  intros H. apply String.app_inj in H. apply String.app_inj in H.
  assert (forall s, free_of "/" (encodeURIComponent s) = true) as Hfree.
  { intros s. apply safe_free_of; [done | apply encodeURIComponent_safe]. }
  destruct (split_at_separator "/" _ _ _ _ (Hfree namespace) (Hfree namespace') H)
    as [Hns Hkey].
  split; by apply encodeURIComponent_inj.
Qed.

(** ** Blobs next to each other *)

(** The state a successful direct upload leaves, as the compositions below
    need it. *)
Lemma upload_succeeds_state (P : Platform) req w namespace key :
  x_blob_namespace req = Some namespace -> x_blob_key req = Some key ->
  namespace <> EmptyString -> key <> EmptyString ->
  arrayBuffer req <> [] -> calm w 2 ->
  exists metadata w1 object,
    BlobUploadEndpoint_handle P req w = (Ret (c_json (UploadBody metadata) 200), w1) /\
    body object = arrayBuffer req /\
    BlobMetadata.isPublic metadata = strict_eq (x_blob_public req) "true" /\
    kv w1 !! kvKey namespace key = Some (JSON_stringify metadata) /\
    objects (select_bucket (BlobMetadata.isPublic metadata)) w1 !! r2Key namespace key
      = Some object /\
    objects (other_bucket (BlobMetadata.isPublic metadata)) w1
      = objects (other_bucket (BlobMetadata.isPublic metadata)) w /\
    outage w1 = outage w /\
    length (trace w1) = (length (trace w) + 2)%nat /\
    signing_configured w1 = signing_configured w.
Proof.
  intros Hns Hkey Hns' Hkey' Hbody Hcalm.
  pose proof (upload_succeeds P req w namespace key Hns Hkey Hns' Hkey' Hbody Hcalm) as Hup.
  cbv zeta in Hup.
  eexists _, _, {| body := arrayBuffer req;
                   httpMetadata_contentType :=
                     or_else (content_type req) "application/octet-stream" |}.
  split; [exact Hup |]. cbn [BlobMetadata.isPublic body].
  repeat split.
  - apply lookup_insert_eq.
  - rewrite objects_log, objects_set_kv, objects_tick, objects_log, objects_set_objects.
    apply lookup_insert_eq.
  - rewrite objects_log, objects_set_kv, objects_tick, objects_log.
    apply objects_set_objects_other.
  - simpl. rewrite !length_app. simpl. lia.
Qed.

(** X19.  Pairs that share a storage key share the blob: after a direct
    upload for (namespace, key), a download for any pair with the same
    storage key, such as (a, b:c) for (a:b, c), streams the uploaded bytes
    under the uploaded record. *)
Theorem colliding_pairs_share_blob (P : Platform) (req : UploadRequest) (w : World)
    (namespace key namespace' key' : string) :
  x_blob_namespace req = Some namespace -> x_blob_key req = Some key ->
  namespace <> EmptyString -> key <> EmptyString ->
  arrayBuffer req <> [] ->
  namespace' <> EmptyString -> key' <> EmptyString ->
  r2Key namespace' key' = r2Key namespace key ->
  calm w 4 ->
  exists metadata w1,
    BlobUploadEndpoint_handle P req w = (Ret (c_json (UploadBody metadata) 200), w1) /\
    (registerBlobDownloadRoute (Some namespace') (Some key') w1).1
      = Ret (stream (arrayBuffer req) 200 (download_headers metadata key')).
Proof.
  intros Hns Hkey Hns' Hkey' Hbody Hns2 Hkey2 Hsame Hcalm.
  destruct (upload_succeeds_state P req w namespace key Hns Hkey Hns' Hkey' Hbody
              (calm_weaken w 4 2 ltac:(lia) Hcalm))
    as (metadata & w1 & object & Hup & Hobject & _ & Hkv & Hobj & _ & Hout & Hlen & _).
  exists metadata, w1. split; [exact Hup |].
  assert (kvKey namespace' key' = kvKey namespace key) as Hsame'
    by by apply kvKey_r2Key_eq.
  rewrite (download_stored_record w1 namespace' key' metadata object Hns2 Hkey2);
    rewrite ?Hsame, ?Hsame', ?Hobject; try done.
  by apply (calm_after w w1 2 2).
Qed.

(** X20.  Uploads to different storage keys do not disturb each other:
    after a direct upload of blob A, any run of a direct upload for a pair
    with another storage key, successful or failing at any point, leaves A
    as it was, and a download of A then streams A's bytes under A's
    record. *)
Theorem uploads_do_not_interfere (P : Platform) (reqA reqB : UploadRequest) (w : World)
    (namespace key : string) :
  x_blob_namespace reqA = Some namespace -> x_blob_key reqA = Some key ->
  namespace <> EmptyString -> key <> EmptyString ->
  arrayBuffer reqA <> [] ->
  r2Key (narrowed (x_blob_namespace reqB)) (narrowed (x_blob_key reqB))
    <> r2Key namespace key ->
  calm w 2 ->
  exists metadata w1,
    BlobUploadEndpoint_handle P reqA w = (Ret (c_json (UploadBody metadata) 200), w1) /\
    let w2 := (BlobUploadEndpoint_handle P reqB w1).2 in
    (calm w2 2 ->
     (registerBlobDownloadRoute (Some namespace) (Some key) w2).1
       = Ret (stream (arrayBuffer reqA) 200 (download_headers metadata key))).
Proof.
  intros Hns Hkey Hns' Hkey' Hbody Hother Hcalm.
  destruct (upload_succeeds_state P reqA w namespace key Hns Hkey Hns' Hkey' Hbody Hcalm)
    as (metadata & w1 & object & Hup & Hobject & _ & Hkv & Hobj & _).
  exists metadata, w1. split; [exact Hup |]. cbv zeta. intros Hcalm2.
  destruct (upload_frame_run P reqB w1) as (_ & Hobjects & Hkvs & _). cbv zeta in *.
  rewrite (download_stored_record _ namespace key metadata object Hns' Hkey');
    rewrite ?Hobject; try done.
  - rewrite Hkvs; [done |]. intros Heq. apply Hother. by apply kvKey_r2Key_eq.
  - rewrite Hobjects; [done |]. congruence.
Qed.

(** X21.  A presigned upload never disturbs the bytes of a blob: after a
    direct upload of a blob, any run of a presigned upload, for whatever
    pair and failing wherever, leaves the object where it is; and unless
    the presigned upload is for a pair with the blob's metadata key, a
    download of the blob streams its bytes under its record as before. *)
Theorem presign_keeps_other_blobs (P : Platform) (reqA : UploadRequest)
    (reqB : JsonRequest) (w : World) (namespace key : string) :
  x_blob_namespace reqA = Some namespace -> x_blob_key reqA = Some key ->
  namespace <> EmptyString -> key <> EmptyString ->
  arrayBuffer reqA <> [] ->
  calm w 2 ->
  exists metadata w1,
    BlobUploadEndpoint_handle P reqA w = (Ret (c_json (UploadBody metadata) 200), w1) /\
    let w2 := (BlobPresignUploadEndpoint_handle P reqB w1).2 in
    body <$> objects (select_bucket (BlobMetadata.isPublic metadata)) w2
               !! r2Key namespace key = Some (arrayBuffer reqA) /\
    ((forall parsed,
        req_json reqB ≫= PresignUploadRequest.safeParse P = Some parsed ->
        kvKey (PresignUploadRequest.namespace parsed) (PresignUploadRequest.key parsed)
          <> kvKey namespace key) ->
     calm w2 2 ->
     (registerBlobDownloadRoute (Some namespace) (Some key) w2).1
       = Ret (stream (arrayBuffer reqA) 200 (download_headers metadata key))).
Proof.
  intros Hns Hkey Hns' Hkey' Hbody Hcalm.
  destruct (upload_succeeds_state P reqA w namespace key Hns Hkey Hns' Hkey' Hbody Hcalm)
    as (metadata & w1 & object & Hup & Hobject & _ & Hkv & Hobj & _).
  exists metadata, w1. split; [exact Hup |]. cbv zeta.
  destruct (presign_frame_run P reqB w1) as (Hr2 & Hpub & _ & Hkv2). cbv zeta in *.
  assert (objects (select_bucket (BlobMetadata.isPublic metadata))
            (BlobPresignUploadEndpoint_handle P reqB w1).2 !! r2Key namespace key
          = Some object) as Hobj2.
  { rewrite <- Hobj. destruct (select_bucket _); simpl; by rewrite ?Hr2, ?Hpub. }
  split; [by rewrite Hobj2, <- Hobject |].
  intros Hother Hcalm2.
  rewrite (download_stored_record _ namespace key metadata object Hns' Hkey');
    rewrite ?Hobject; try done.
  destruct Hkv2 as [-> | (parsed & text & Hparsed & _ & ->)]; [done |].
  rewrite lookup_insert_ne; [done |]. by apply Hother.
Qed.

(** The state a successful presigned upload leaves. *)
Lemma presign_succeeds_state (P : Platform) req w body parsed :
  signing_configured w = true ->
  req_json req = Some body ->
  PresignUploadRequest.safeParse P body = Some parsed ->
  calm w 2 ->
  exists w1 uploadedAt,
    (BlobPresignUploadEndpoint_handle P req w).2 = w1 /\
    (exists uploadUrl expiresAt,
       (BlobPresignUploadEndpoint_handle P req w).1
       = Ret (c_json (PresignBody uploadUrl expiresAt) 200)) /\
    kv w1 !! kvKey (PresignUploadRequest.namespace parsed) (PresignUploadRequest.key parsed)
      = Some (JSON_stringify
                (BlobMetadata.mk (PresignUploadRequest.key parsed)
                   (PresignUploadRequest.namespace parsed)
                   (PresignUploadRequest.size parsed)
                   (PresignUploadRequest.contentType parsed) uploadedAt
                   (PresignUploadRequest.isPublic parsed))) /\
    r2 w1 = r2 w /\ r2_public w1 = r2_public w.
Proof.
  intros Hcfg Hreq Hparsed Hcalm.
  pose proof (presign_run P req w) as H. cbv zeta in H.
  rewrite Hcfg, Hreq, Hparsed, (calm_now _ _ Hcalm) in H. cbn [negb] in H.
  rewrite <- Nat.add_1_r in H. rewrite (Hcalm 1%nat ltac:(lia)) in H.
  rewrite H. eexists _, _. split; [done |]. split; [by eexists _, _ |].
  split; [apply lookup_insert_eq | done].
Qed.

(** X22.  A presigned upload for a blob that exists replaces its record at
    once: before the client has uploaded anything, with the same visibility
    a download streams the bytes stored before under the size and content
    type the presign request declared, the content type being a value
    [headers.set] keeps and the size a safe integer; with the other
    visibility, and no object under the key in the other bucket, it answers
    404 "Blob not found in storage" although the bytes stored before are
    still there. *)
Theorem presign_over_existing_blob (P : Platform) (reqA : UploadRequest)
    (reqB : JsonRequest) (w : World) (declared : json)
    (parsed : PresignUploadRequest.data) :
  let namespace := PresignUploadRequest.namespace parsed in
  let key := PresignUploadRequest.key parsed in
  let isPublic := strict_eq (x_blob_public reqA) "true" in
  x_blob_namespace reqA = Some namespace -> x_blob_key reqA = Some key ->
  namespace <> EmptyString -> key <> EmptyString ->
  arrayBuffer reqA <> [] ->
  signing_configured w = true ->
  req_json reqB = Some declared ->
  PresignUploadRequest.safeParse P declared = Some parsed ->
  calm w 6 ->
  let w1 := (BlobUploadEndpoint_handle P reqA w).2 in
  let w2 := (BlobPresignUploadEndpoint_handle P reqB w1).2 in
  (PresignUploadRequest.isPublic parsed = isPublic ->
   header_value (PresignUploadRequest.contentType parsed) = true ->
   Number_isSafeInteger (PresignUploadRequest.size parsed) = true ->
   exists uploadedAt,
     (registerBlobDownloadRoute (Some namespace) (Some key) w2).1
     = Ret (stream (arrayBuffer reqA) 200
              (download_headers
                 (BlobMetadata.mk key namespace (PresignUploadRequest.size parsed)
                    (PresignUploadRequest.contentType parsed) uploadedAt
                    (PresignUploadRequest.isPublic parsed)) key))) /\
  (PresignUploadRequest.isPublic parsed = negb isPublic ->
   objects (other_bucket isPublic) w !! r2Key namespace key = None ->
   (registerBlobDownloadRoute (Some namespace) (Some key) w2).1 = Ret ObjectNotFound /\
   body <$> objects (select_bucket isPublic) w2 !! r2Key namespace key
     = Some (arrayBuffer reqA)).
Proof.
  cbv zeta. intros Hns Hkey Hns' Hkey' Hbody Hcfg Hreq Hparsed Hcalm.
  destruct (upload_succeeds_state P reqA w _ _ Hns Hkey Hns' Hkey' Hbody
              (calm_weaken w 6 2 ltac:(lia) Hcalm))
    as (metadata & w1 & object & Hup & Hobject & Hflag & _ & Hobj & Hother & Hout & Hlen
        & Hcfg1).
  rewrite Hup. cbn [snd].
  assert (calm w1 4) as Hcalm1 by by apply (calm_after w w1 4 2).
  destruct (presign_succeeds_state P reqB w1 declared parsed ltac:(by rewrite Hcfg1) Hreq
              Hparsed (calm_weaken w1 4 2 ltac:(lia) Hcalm1))
    as (w2 & uploadedAt & Hw2 & _ & Hkv2 & Hr2 & Hpub).
  assert (calm w2 2) as Hcalm2.
  { pose proof (presign_run P reqB w1) as H. cbv zeta in H.
    rewrite Hcfg1, Hcfg, Hreq, Hparsed, (calm_now _ _ Hcalm1) in H. cbn [negb] in H.
    rewrite <- Nat.add_1_r in H. rewrite (Hcalm1 1%nat ltac:(lia)) in H.
    rewrite H in Hw2. cbn [snd] in Hw2. subst w2.
    intros i Hi. simpl. rewrite !length_app. simpl.
    replace (length (trace w1) + 1 + 1 + i)%nat with (length (trace w1) + (2 + i))%nat
      by lia.
    apply Hcalm1. lia. }
  rewrite Hw2.
  assert (forall b, objects b w2 = objects b w1) as Hobjects
    by (intros []; simpl; congruence).
  rewrite Hflag in *. split.
  - intros Hsame _ _. exists uploadedAt.
    rewrite (download_stored_record w2 _ _ _ object Hns' Hkey' Hkv2);
      rewrite ?Hobject; try done.
    cbn [BlobMetadata.isPublic]. by rewrite Hsame, Hobjects.
  - intros Hflip Hnone. split.
    + rewrite (download_reads_object w2 _ _ _ _ Hns' Hkey' Hkv2 (parse_JSON_stringify _)
                 Hcalm2).
      cbn [BlobMetadata.to_object JSON.get JSON.truthy String.eqb Ascii.eqb Bool.eqb
           BlobMetadata.isPublic].
      rewrite Hflip, Hobjects.
      change (select_bucket (negb (strict_eq (x_blob_public reqA) "true")))
        with (other_bucket (strict_eq (x_blob_public reqA) "true")).
      by rewrite Hother, Hnone.
    + by rewrite Hobjects, Hobj, <- Hobject.
Qed.

(** ** What an answer tells the caller *)

(** X23.  A direct upload rejects before it acts: an error body from it is
    a 400, for a missing (or empty) namespace or key header or else for an
    empty payload, and the run that gave it made no interaction, read no
    clock and changed nothing. *)
Theorem upload_rejection_sound (P : Platform) (req : UploadRequest) (w : World)
    (code status : Z) (message : string) :
  (BlobUploadEndpoint_handle P req w).1 = Ret (c_json (ErrorBody code message) status) ->
  (BlobUploadEndpoint_handle P req w).2 = w /\ code = 400 /\ status = 400 /\
  (falsy (x_blob_namespace req) || falsy (x_blob_key req) = true /\
   message = "Missing x-blob-namespace or x-blob-key header"
   \/
   falsy (x_blob_namespace req) || falsy (x_blob_key req) = false /\
   arrayBuffer req = [] /\ message = "Empty file").
Proof.
  pose proof (upload_run P req w) as H.
  guards H; rewrite H; cbn [fst snd]; intros Hanswer; try discriminate Hanswer;
    injection Hanswer as <- <- <-; repeat split; auto.
  right. repeat split.
  destruct (arrayBuffer req); [done | discriminate].
Qed.

(** X24.  A presigned upload rejects before it acts: an error body from it
    is a 503, the signing credentials not being configured, or a 400, the
    credentials being configured and the body not passing the schema; the
    run that gave it signed nothing, wrote no record and changed nothing. *)
Theorem presign_rejection_sound (P : Platform) (req : JsonRequest) (w : World)
    (code status : Z) (message : string) :
  (BlobPresignUploadEndpoint_handle P req w).1
    = Ret (c_json (ErrorBody code message) status) ->
  (BlobPresignUploadEndpoint_handle P req w).2 = w /\
  (code = 503 /\ status = 503 /\ signing_configured w = false
   \/
   code = 400 /\ status = 400 /\ signing_configured w = true /\
   exists body, req_json req = Some body /\ PresignUploadRequest.safeParse P body = None).
Proof.
  pose proof (presign_run P req w) as H.
  guards H; rewrite H; cbn [fst snd]; intros Hanswer; try discriminate Hanswer;
    injection Hanswer as <- <- <-; (split; [done |]).
  - left. repeat split. by destruct (signing_configured w).
  - right. repeat split; [by destruct (signing_configured w) |]. by eexists.
Qed.

(** X25.  The download route serves no bytes without a record and an
    object: a streamed answer is a 200, the metadata store holds a record
    for the pair that parses, the bucket whose visibility that record gives
    holds an object under the storage key, the payload is that object's
    body, and both reads were made and succeeded, the metadata store
    first. *)
Theorem download_success_sound (namespace key : option string) (w : World)
    (payload : list byte) (status : Z) (headers : list (string * string)) :
  (registerBlobDownloadRoute namespace key w).1 = Ret (stream payload status headers) ->
  status = 200 /\
  exists ns k text metadata object,
    namespace = Some ns /\ key = Some k /\ ns <> EmptyString /\ k <> EmptyString /\
    kv w !! kvKey ns k = Some text /\
    JSON.parse text = Some metadata /\
    objects (select_bucket (JSON.truthy (JSON.get "isPublic" metadata))) w !! r2Key ns k
      = Some object /\
    body object = payload /\
    trace (registerBlobDownloadRoute namespace key w).2
      = trace w ++
          [ succeeded (KV_get (kvKey ns k));
            succeeded (R2_get (select_bucket (JSON.truthy (JSON.get "isPublic" metadata)))
                         (r2Key ns k)) ].
Proof.
  pose proof (download_run namespace key w) as H.
  guards H; rewrite H; cbn [fst snd]; intros Hanswer; try discriminate Hanswer.
  injection Hanswer as <- <- <-. split; [done |].
  match goal with
  | Hguard : _ || _ = false |- _ => apply orb_false_elim in Hguard as [Hns Hk]
  end.
  destruct namespace as [ns|]; [| discriminate Hns].
  destruct key as [k|]; [| discriminate Hk].
  cbn [narrowed default] in *. unfold id in *.
  destruct (kv w !! kvKey ns k) as [text|] eqn:Hkv; [| discriminate].
  eexists ns, k, text, _, _. cbn [narrowed default] in *. unfold id in *.
  repeat split; try eassumption; try done.
  - intros ->. discriminate Hns.
  - intros ->. discriminate Hk.
  - cbn [trace log]. by rewrite <- app_assoc.
Qed.

(** X26.  A reference is handed out for a stored record only: a
    get-reference answer with a URL is a 200, the body passed validation
    to a namespace and a key, the metadata store holds a record under their
    metadata key, the metadata of the answer is that record parsed, with
    nothing added or checked, and the URL is the download path of the pair
    under the origin of the request. *)
Theorem get_reference_success_sound (P : Platform) (req : JsonRequest) (w : World)
    (link : string) (metadata : JSON.object) (status : Z) :
  (BlobGetEndpoint_handle P req w).1 = Ret (c_json (GetBody link metadata) status) ->
  status = 200 /\
  exists namespace key text,
    req_json req ≫= BlobGetRequest P = Some (namespace, key) /\
    kv w !! kvKey namespace key = Some text /\
    JSON.parse text = Some metadata /\
    link = URL_origin P (url req) +:+ "/blob/download/" +:+ encodeURIComponent namespace
             +:+ "/" +:+ encodeURIComponent key.
Proof.
  pose proof (get_run P req w) as H.
  guards H; rewrite H; cbn [fst snd]; intros Hanswer; try discriminate Hanswer.
  injection Hanswer as <- <- <-. split; [done |].
  destruct (kv w !! kvKey _ _) as [text|] eqn:Hkv; [| discriminate].
  by eexists _, _, text.
Qed.

(* ===================================================================== *)
(** * Worked examples of the further properties *)
(* ===================================================================== *)

Section MoreExamples.

Import Example.

Lemma parsable_w0 : parsable w0.
Proof. intros k text H. cbn [kv w0] in H. rewrite lookup_empty in H. discriminate H. Defined.

Lemma backed_w0 : backed w0.
Proof.
  intros namespace key text metadata H. cbn [kv w0] in H.
  rewrite lookup_empty in H. discriminate H.
Defined.

(** X3 on the world an upload leaves when its metadata write fails: the
    bytes are stored, and the download answers 404 "Blob not found". *)
Lemma download_requires_metadata_witness :
  let w := after (BlobUploadEndpoint_handle platform docs_readme) w_second_fails in
  registerBlobDownloadRoute (Some "docs") (Some "readme.txt") w
    = (Ret BlobNotFound, log (succeeded (KV_get (kvKey "docs" "readme.txt"))) w).
Proof.
  apply (download_requires_metadata "docs" "readme.txt"
           (after (BlobUploadEndpoint_handle platform docs_readme) w_second_fails));
    [discriminate | discriminate | reflexivity | intros i _; reflexivity].
Defined.

Lemma upload_metadata_failure_orphans_object_witness :
  let run := BlobUploadEndpoint_handle platform docs_readme w_second_fails in
  (exists text, run.1 = Throw (IOError (KV_put (kvKey "docs" "readme.txt") text))) /\
  body <$> objects R2 run.2 !! r2Key "docs" "readme.txt" = Some hello /\
  kv run.2 = kv w_second_fails /\
  (registerBlobDownloadRoute (Some "docs") (Some "readme.txt") run.2).1 = Ret BlobNotFound.
Proof.
  destruct (upload_metadata_failure_orphans_object platform docs_readme w_second_fails
              "docs" "readme.txt" eq_refl eq_refl ltac:(discriminate) ltac:(discriminate)
              ltac:(discriminate) eq_refl eq_refl) as (Hthrow & Hobject & Hkv & Hdown).
  split; [exact Hthrow |]. split; [exact Hobject |]. split; [exact Hkv |].
  apply Hdown; [reflexivity | intros i _; reflexivity].
Defined.

Lemma presign_schema_accepts_witness :
  exists members size,
    presign_body "docs" "k" 5 true = JObj members /\
    NamespaceValue platform (json_member "namespace" members) = Some "docs" /\
    json_member "key" members = Some (JStr "k") /\
    json_member "contentType" members = Some (JStr "text/plain") /\
    json_member "size" members = Some (JNum size) /\
    (size == inject_Z 5)%Q /\
    1 <= 5 /\
    (json_member "isPublic" members = Some (JBool true) \/
     json_member "isPublic" members = None /\ true = false).
Proof.
  exact (presign_schema_accepts platform (presign_body "docs" "k" 5 true)
           (PresignUploadRequest.mk "docs" "k" "text/plain" 5 true) eq_refl).
Defined.

Lemma parsable_preserved_witness :
  parsable (after (BlobUploadEndpoint_handle platform docs_readme) w0) /\
  parsable (after (BlobPresignUploadEndpoint_handle platform
                     (post (presign_body "docs" "k" 5 true))) w0).
Proof.
  destruct (parsable_preserved platform w0 parsable_w0) as (Hupload & Hpresign & _).
  split; [apply Hupload | apply Hpresign].
Defined.

Lemma parsable_readers_parse_witness :
  let w := after (BlobUploadEndpoint_handle platform docs_readme) w0 in
  (registerBlobDownloadRoute (Some "docs") (Some "readme.txt") w).1 <> Throw SyntaxError /\
  (BlobGetEndpoint_handle platform (post (get_body "docs" "readme.txt")) w).1
    <> Throw SyntaxError.
Proof.
  destruct (parsable_readers_parse platform
              (after (BlobUploadEndpoint_handle platform docs_readme) w0)
              (upload_keeps_parsable platform docs_readme w0 parsable_w0))
    as (Hdownload & Hget).
  split; [apply Hdownload | apply Hget].
Defined.

Lemma backed_preserved_witness :
  backed (after (BlobUploadEndpoint_handle platform docs_readme) w0) /\
  backed (after (BlobUploadEndpoint_handle platform docs_readme) w_second_fails).
Proof.
  split.
  - apply (proj1 (backed_preserved platform w0 backed_w0)).
  - apply (proj1 (backed_preserved platform w_second_fails
                    ltac:(intros namespace key text metadata H;
                          cbn [kv w_second_fails] in H;
                          rewrite lookup_empty in H; discriminate H))).
Defined.

Lemma backed_download_finds_object_witness :
  (registerBlobDownloadRoute (Some "docs") (Some "other.txt")
     (served_all platform
        [ DirectUpload docs_readme;
          StreamDownload (Some "docs") (Some "readme.txt");
          DirectUpload (upload "docs" "other.txt" (Some "true") []);
          GetReference (post (get_body "docs" "other.txt")) ] w0)).1
  <> Ret ObjectNotFound.
Proof.
  apply (backed_download_finds_object platform
           [ DirectUpload docs_readme;
             StreamDownload (Some "docs") (Some "readme.txt");
             DirectUpload (upload "docs" "other.txt" (Some "true") []);
             GetReference (post (get_body "docs" "other.txt")) ]
           (Some "docs") (Some "other.txt") w0 parsable_w0 backed_w0).
  repeat constructor.
Defined.

(** X13 on a record that declares nine bytes of text/html over the five
    bytes of "hello". *)
Lemma download_declares_record_witness :
  let m := BlobMetadata.mk "readme.txt" "docs" 9 "text/html" "1700000000000" false in
  let w :=
    set_kv {[ kvKey "docs" "readme.txt" := JSON_stringify m ]}
      (set_objects R2
         {[ r2Key "docs" "readme.txt" :=
              {| body := hello; httpMetadata_contentType := "text/plain" |} ]} w0) in
  (registerBlobDownloadRoute (Some "docs") (Some "readme.txt") w).1
    = Ret (stream hello 200
             [ ("Content-Type", "text/html"); ("Content-Length", "9");
               ("Content-Disposition", attachment "readme.txt") ]).
Proof.
  intros m w.
  exact (download_declares_record w "docs" "readme.txt" m
           {| body := hello; httpMetadata_contentType := "text/plain" |}
           ltac:(discriminate) ltac:(discriminate) eq_refl eq_refl eq_refl eq_refl
           ltac:(intros i _; reflexivity)).
Defined.

Lemma upload_then_get_reference_witness :
  exists metadata w1,
    BlobUploadEndpoint_handle platform docs_readme w0
      = (Ret (c_json (UploadBody metadata) 200), w1) /\
    (BlobGetEndpoint_handle platform (post (get_body "docs" "readme.txt")) w1).1
      = Ret (c_json
               (GetBody ("https://gateway.example" +:+ "/blob/download/"
                           +:+ encodeURIComponent "docs" +:+ "/"
                           +:+ encodeURIComponent "readme.txt")
                  (BlobMetadata.to_object metadata)) 200).
Proof.
  exact (upload_then_get_reference platform docs_readme
           (post (get_body "docs" "readme.txt")) w0 "docs" "readme.txt"
           eq_refl eq_refl ltac:(discriminate) ltac:(discriminate) ltac:(discriminate)
           eq_refl (calm_w0 3)).
Defined.

Lemma presign_signs_declared_request_witness :
  (BlobPresignUploadEndpoint_handle platform (post (presign_body "docs" "k" 5 true)) w0).1
  = Ret (c_json
           (PresignBody
              (getSignedUrl platform
                 {| region := "auto";
                    endpoint := "https://acct.r2.cloudflarestorage.com";
                    accessKeyId := "AKIA"; secretAccessKey := "secret" |}
                 {| Bucket_ := "federise-objects-public"; Key := "docs:k";
                    ContentType := "text/plain"; ContentLength := 5 |} 3600)
              (toISOString platform 1700003600000)) 200).
Proof.
  exact (proj1 (presign_signs_declared_request platform
                  (post (presign_body "docs" "k" 5 true)) w0
                  (presign_body "docs" "k" 5 true)
                  (PresignUploadRequest.mk "docs" "k" "text/plain" 5 true)
                  eq_refl eq_refl eq_refl (calm_w0 2))).
Defined.

Lemma reference_url_unambiguous_witness :
  "docs" = "docs" /\ "a/b c" = "a/b c".
Proof.
  exact (reference_url_unambiguous "https://gateway.example" "docs" "a/b c" "docs" "a/b c"
           eq_refl).
Defined.

(** X19 on the pairs (a:b, c) and (a, b:c). *)
Lemma colliding_pairs_share_blob_witness :
  exists metadata w1,
    BlobUploadEndpoint_handle platform (upload "a:b" "c" None hello) w0
      = (Ret (c_json (UploadBody metadata) 200), w1) /\
    (registerBlobDownloadRoute (Some "a") (Some "b:c") w1).1
      = Ret (stream (arrayBuffer (upload "a:b" "c" None hello)) 200
               (download_headers metadata "b:c")).
Proof.
  exact (colliding_pairs_share_blob platform (upload "a:b" "c" None hello) w0
           "a:b" "c" "a" "b:c" eq_refl eq_refl ltac:(discriminate) ltac:(discriminate)
           ltac:(discriminate) ltac:(discriminate) ltac:(discriminate) eq_refl
           (calm_w0 4)).
Defined.

Lemma uploads_do_not_interfere_witness :
  exists metadata w1,
    BlobUploadEndpoint_handle platform docs_readme w0
      = (Ret (c_json (UploadBody metadata) 200), w1) /\
    (registerBlobDownloadRoute (Some "docs") (Some "readme.txt")
       (BlobUploadEndpoint_handle platform (upload "docs" "other.txt" (Some "true") hello)
          w1).2).1
      = Ret (stream hello 200 (download_headers metadata "readme.txt")).
Proof.
  destruct (uploads_do_not_interfere platform docs_readme
              (upload "docs" "other.txt" (Some "true") hello) w0 "docs" "readme.txt"
              eq_refl eq_refl ltac:(discriminate) ltac:(discriminate) ltac:(discriminate)
              ltac:(discriminate) (calm_w0 2)) as (metadata & w1 & Hup & Hdown).
  exists metadata, w1. split; [exact Hup |].
  apply Hdown. injection Hup as _ <-. intros i _. reflexivity.
Defined.

Lemma presign_keeps_other_blobs_witness :
  exists metadata w1,
    BlobUploadEndpoint_handle platform docs_readme w0
      = (Ret (c_json (UploadBody metadata) 200), w1) /\
    (registerBlobDownloadRoute (Some "docs") (Some "readme.txt")
       (BlobPresignUploadEndpoint_handle platform (post (presign_body "docs" "k" 5 true))
          w1).2).1
      = Ret (stream hello 200 (download_headers metadata "readme.txt")).
Proof.
  destruct (presign_keeps_other_blobs platform docs_readme
              (post (presign_body "docs" "k" 5 true)) w0 "docs" "readme.txt"
              eq_refl eq_refl ltac:(discriminate) ltac:(discriminate) ltac:(discriminate)
              (calm_w0 2)) as (metadata & w1 & Hup & _ & Hdown).
  exists metadata, w1. split; [exact Hup |].
  apply Hdown.
  - intros parsed Hparsed. injection Hparsed as <-. discriminate.
  - injection Hup as _ <-. intros i _. reflexivity.
Defined.

(** X22: nine bytes declared over the five of "hello", with the
    visibility of the blob and with the other one. *)
Lemma presign_over_existing_blob_witness :
  let presign public :=
    BlobPresignUploadEndpoint_handle platform
      (post (presign_body "docs" "readme.txt" 9 public)) in
  let w1 := (BlobUploadEndpoint_handle platform docs_readme w0).2 in
  (exists uploadedAt,
     (registerBlobDownloadRoute (Some "docs") (Some "readme.txt")
        (presign false w1).2).1
     = Ret (stream hello 200
              (download_headers
                 (BlobMetadata.mk "readme.txt" "docs" 9 "text/plain" uploadedAt false)
                 "readme.txt"))) /\
  (registerBlobDownloadRoute (Some "docs") (Some "readme.txt") (presign true w1).2).1
    = Ret ObjectNotFound.
Proof.
  cbv zeta. split.
  - exact (proj1 (presign_over_existing_blob platform docs_readme
                    (post (presign_body "docs" "readme.txt" 9 false)) w0
                    (presign_body "docs" "readme.txt" 9 false)
                    (PresignUploadRequest.mk "docs" "readme.txt" "text/plain" 9 false)
                    eq_refl eq_refl ltac:(discriminate) ltac:(discriminate)
                    ltac:(discriminate) eq_refl eq_refl eq_refl (calm_w0 6))
             eq_refl eq_refl eq_refl).
  - exact (proj1 (proj2 (presign_over_existing_blob platform docs_readme
                           (post (presign_body "docs" "readme.txt" 9 true)) w0
                           (presign_body "docs" "readme.txt" 9 true)
                           (PresignUploadRequest.mk "docs" "readme.txt" "text/plain" 9 true)
                           eq_refl eq_refl ltac:(discriminate) ltac:(discriminate)
                           ltac:(discriminate) eq_refl eq_refl eq_refl (calm_w0 6))
                    eq_refl eq_refl)).
Defined.

Lemma upload_rejection_sound_witness :
  (BlobUploadEndpoint_handle platform (upload "docs" "readme.txt" None []) w_down).2 = w_down
  /\ 400 = 400.
Proof.
  destruct (upload_rejection_sound platform (upload "docs" "readme.txt" None []) w_down
              400 400 "Empty file" eq_refl) as (Hworld & Hcode & _).
  split; [exact Hworld | exact Hcode].
Defined.

Lemma presign_rejection_sound_witness :
  (BlobPresignUploadEndpoint_handle platform (post (presign_body "docs" "k" 5 true))
     w_unsigned).2 = w_unsigned.
Proof.
  exact (proj1 (presign_rejection_sound platform (post (presign_body "docs" "k" 5 true))
                  w_unsigned 503 503 "R2 credentials not configured for presigned URLs"
                  eq_refl)).
Defined.

Lemma download_success_sound_witness :
  let w := after (BlobUploadEndpoint_handle platform docs_readme) w0 in
  exists ns k text metadata object,
    Some "docs" = Some ns /\ Some "readme.txt" = Some k /\
    ns <> EmptyString /\ k <> EmptyString /\
    kv w !! kvKey ns k = Some text /\
    JSON.parse text = Some metadata /\
    objects (select_bucket (JSON.truthy (JSON.get "isPublic" metadata))) w !! r2Key ns k
      = Some object /\
    body object = hello /\
    trace (registerBlobDownloadRoute (Some "docs") (Some "readme.txt") w).2
      = trace w ++
          [ succeeded (KV_get (kvKey ns k));
            succeeded (R2_get (select_bucket (JSON.truthy (JSON.get "isPublic" metadata)))
                         (r2Key ns k)) ].
Proof.
  exact (proj2 (download_success_sound (Some "docs") (Some "readme.txt")
                  (after (BlobUploadEndpoint_handle platform docs_readme) w0) hello 200
                  [ ("Content-Type", "text/plain"); ("Content-Length", "5");
                    ("Content-Disposition", attachment "readme.txt") ]
                  ltac:(vm_compute; reflexivity))).
Defined.

Lemma get_reference_success_sound_witness :
  let w := after (BlobUploadEndpoint_handle platform docs_readme) w0 in
  exists namespace key text,
    req_json (post (get_body "docs" "readme.txt")) ≫= BlobGetRequest platform
      = Some (namespace, key) /\
    kv w !! kvKey namespace key = Some text /\
    JSON.parse text
      = Some (BlobMetadata.to_object
                (BlobMetadata.mk "readme.txt" "docs" 5 "text/plain" "1700000000000" false))
    /\
    "https://gateway.example/blob/download/docs/readme.txt"
      = URL_origin platform (url (post (get_body "docs" "readme.txt")))
          +:+ "/blob/download/" +:+ encodeURIComponent namespace
          +:+ "/" +:+ encodeURIComponent key.
Proof.
  exact (proj2 (get_reference_success_sound platform (post (get_body "docs" "readme.txt"))
                  (after (BlobUploadEndpoint_handle platform docs_readme) w0)
                  "https://gateway.example/blob/download/docs/readme.txt"
                  (BlobMetadata.to_object
                     (BlobMetadata.mk "readme.txt" "docs" 5 "text/plain" "1700000000000"
                        false))
                  200 ltac:(vm_compute; reflexivity))).
Defined.

End MoreExamples.
